(** * typedoc-d-ts: entry-point collection and configuration validation

    A shallow embedding of [src/generator/data/PackageJson.js] and of
    [validation.js] (its text follows the type declarations in
    [src/generator/types.d.ts]), followed by the properties of the
    natural-language specification that concern them.

    JavaScript values are a JSON-shaped tree; the logger, the file system,
    [upath] and the TypeScript compiler API are collaborators of the code and
    enter as section variables. *)

From Stdlib Require Import ZArith Ascii.
From stdpp Require Import base option list strings pretty gmap.

Set Warnings "-register-all".

(** ** JavaScript values *)

Module JS.

(** Values as the code meets them: the manifest is parsed JSON and a
    request is an object literal, so a tree suffices.  Numbers are the
    integers that JavaScript holds exactly and prints digit by digit, those of
    magnitude up to 2^53. *)
Inductive JsVal : Type :=
| JUndefined
| JNull
| JBool (b : bool)
| JNum (n : Z)
| JStr (s : string)
| JArr (elems : list JsVal)
| JObj (props : list (string * JsVal)).

(** The results of [typeof] that tree values can have. *)
Inductive JsType : Type :=
| TUndefined | TObject | TBoolean | TNumber | TString.

#[global] Instance JsType_eq_dec : EqDecision JsType.
Proof. solve_decision. Defined.

(** [typeof v]; note [typeof null === 'object']. *)
Definition typeof (v : JsVal) : JsType :=
  match v with
  | JUndefined => TUndefined
  | JNull => TObject
  | JBool _ => TBoolean
  | JNum _ => TNumber
  | JStr _ => TString
  | JArr _ => TObject
  | JObj _ => TObject
  end.

Definition isString (v : JsVal) : bool := bool_decide (typeof v = TString).

(** [a === b].  Primitives compare by value.  Objects and arrays compare by
    identity; every node of a tree is an object of its own, so two of them
    are never the same object.  On integral numbers SameValueZero, the
    equality of [Set] and [Map], is the same relation. *)
Definition strictEq (a b : JsVal) : bool :=
  match a, b with
  | JUndefined, JUndefined => true
  | JNull, JNull => true
  | JBool x, JBool y => bool_decide (x = y)
  | JNum x, JNum y => bool_decide (x = y)
  | JStr x, JStr y => bool_decide (x = y)
  | _, _ => false
  end.

(** [!== void 0]. *)
Definition isDefined (v : JsVal) : bool := negb (strictEq v JUndefined).

Fixpoint join (sep : string) (parts : list string) : string :=
  match parts with
  | [] => ""
  | [p] => p
  | p :: rest => p +:+ sep +:+ join sep rest
  end.

(** [String(v)], the conversion a template literal applies. *)
Fixpoint toString (v : JsVal) : string :=
  match v with
  | JUndefined => "undefined"
  | JNull => "null"
  | JBool true => "true"
  | JBool false => "false"
  | JNum n => pretty n
  | JStr s => s
  | JArr elems =>
      join ","
        ((fix each (l : list JsVal) : list string :=
            match l with
            | [] => []
            | JUndefined :: l' => "" :: each l'
            | JNull :: l' => "" :: each l'
            | e :: l' => toString e :: each l'
            end) elems)
  | JObj _ => "[object Object]"
  end.

(** [s.endsWith(suffix)]; also what a regular expression of the form
    [/suffix$/] tests. *)
Definition endsWith (s suffix : string) : bool :=
  let n := String.length s in
  let m := String.length suffix in
  bool_decide (m ≤ n) && bool_decide (String.substring (n - m) m s = suffix).

(** [new Set(elems)]: first occurrences, in insertion order. *)
Definition setHas (entries : list JsVal) (v : JsVal) : bool :=
  existsb (strictEq v) entries.

Definition setAdd (entries : list JsVal) (v : JsVal) : list JsVal :=
  if setHas entries v then entries else entries ++ [v].

Definition newSet (elems : list JsVal) : list JsVal :=
  foldl setAdd [] elems.

(** [map.has(key)] and [map.get(key)] on a [Map] whose keys are strings. *)
Definition mapGet (m : gmap string string) (key : JsVal) : option string :=
  match key with
  | JStr k => m !! k
  | _ => None
  end.


End JS.
Import JS.

(** ** Diagnostics and control flow *)

Inductive Level : Type := Verbose | Warn | Error.

(** What a run tells its collaborators: a line for [Logger], or a manifest
    lookup through [getPackageWithPath]. *)
Inductive Event : Type :=
| Log (lvl : Level) (msg : string)
| GetPackageWithPath (filepath basepath : string).

#[global] Instance Level_eq_dec : EqDecision Level.
Proof. solve_decision. Defined.
#[global] Instance Event_eq_dec : EqDecision Event.
Proof. solve_decision. Defined.

(** A method body: it updates the object [S] it works on, emits events, and
    either falls through with an [A] or leaves early through [return r]. *)
Definition Exec (S R A : Type) : Type := S → (A + R) * S * list Event.

#[global] Instance Exec_ret {S R} : MRet (Exec S R) :=
  λ A a s, (inl a, s, []).

#[global] Instance Exec_bind {S R} : MBind (Exec S R) :=
  λ A B f m s,
    match m s with
    | (inl a, s1, l1) => let '(r, s2, l2) := f a s1 in (r, s2, l1 ++ l2)
    | (inr r, s1, l1) => (inr r, s1, l1)
    end.

Definition exit {S R A} (r : R) : Exec S R A := λ s, (inr r, s, []).
Definition emit {S R} (e : Event) : Exec S R unit := λ s, (inl (), s, [e]).
Definition logger {S R} (lvl : Level) (msg : string) : Exec S R unit :=
  emit (Log lvl msg).
Definition gets {S R A} (f : S → A) : Exec S R A := λ s, (inl (f s), s, []).
Definition modify {S R} (f : S → S) : Exec S R unit := λ s, (inl (), f s, []).
Definition when {S R} (c : bool) (m : Exec S R unit) : Exec S R unit :=
  if c then m else mret ().

(** [for (const x of xs) { body }]. *)
Fixpoint forOf {S R A} (xs : list A) (body : A → Exec S R unit) : Exec S R unit :=
  match xs with
  | [] => mret ()
  | x :: xs' => body x ;; forOf xs' body
  end.

(** Calling a method: both ways out of the body carry the returned value. *)
Definition call {S R} (m : Exec S R R) (s : S) : R * S * list Event :=
  match m s with
  | (inl r, s', l) => (r, s', l)
  | (inr r, s', l) => (r, s', l)
  end.

Definition result {S R} (o : R * S * list Event) : R := o.1.1.
Definition after {S R} (o : R * S * list Event) : S := o.1.2.
Definition events {S R} (o : R * S * list Event) : list Event := o.2.

(** [for (const x of xs) { body }] around a local variable the body updates. *)
Fixpoint foldOf {S R A B} (xs : list A) (acc : B) (body : B → A → Exec S R B)
    : Exec S R B :=
  match xs with
  | [] => mret acc
  | x :: xs' => acc' ← body acc x; foldOf xs' acc' body
  end.

(** The parsed [package.json], with the properties the code reads. *)
Record PackageObj : Type := mkPackageObj {
  exports : JsVal;
  types : JsVal;
  typings : JsVal;
  name : JsVal
}.

(** ** validation.js *)

Module Validation.

(** [regexAllowedFiles = /\.(js|mjs|ts|mts)$/] *)
Definition regexAllowedFiles_test (s : string) : bool :=
  endsWith s ".js" || endsWith s ".mjs" || endsWith s ".ts" || endsWith s ".mts".

(** [regexIsDTSFile = /\.d\.(cts|ts|mts)$/] *)
Definition regexIsDTSFile_test (s : string) : bool :=
  endsWith s ".d.cts" || endsWith s ".d.ts" || endsWith s ".d.mts".

(** [isObject] of [@typhonjs-utils/object]: a non-null object that is not an
    array. *)
Definition isObject (v : JsVal) : bool :=
  match v with
  | JObj _ => true
  | _ => false
  end.

(** [isIterable] of [@typhonjs-utils/object]: a non-null object that has
    [Symbol.iterator]; among tree values, the arrays. *)
Definition isIterable (v : JsVal) : bool :=
  match v with
  | JArr _ => true
  | _ => false
  end.

(** [Array.from(v)]. *)
Definition arrayFrom (v : JsVal) : list JsVal :=
  match v with
  | JArr elems => elems
  | _ => []
  end.

(** What [validation.js] imports or reads from its environment. *)
Class Imports : Type := {
  (** [process.cwd()] *)
  cwd : string;
  (** [isFile] of [@typhonjs-utils/file-util] *)
  isFile : JsVal → bool;
  (** [getPackageWithPath({ filepath, basepath })] of
      [@typhonjs-utils/package-json]: [None] when it found no [packageObj] *)
  getPackageWithPath : string → string → option (PackageObj * string);
  (** [path.toUnix] of [upath] *)
  toUnix : string → string;
  (** [linkPluginMap] of [./typedoc.js] *)
  linkPluginMap : gmap string string
}.

(** The TypeScript compiler API used by [validateCompilerOptions]. *)
Class TypeScript : Type := {
  CompilerOptionsJson : Type;
  CompilerOptions : Type;
  MessageText : Type;
  (** [ts.convertCompilerOptionsFromJson(json, basePath)]: the [options] and
      the [messageText] of each of the [errors] *)
  convertCompilerOptionsFromJson :
    CompilerOptionsJson → string → CompilerOptions * list MessageText;
  (** [ts.flattenDiagnosticMessageText(messageText, newLine)] *)
  flattenDiagnosticMessageText : MessageText → string → string
}.

(** The fields of a generation request that [validateConfig] reads. *)
Record GenerateConfig : Type := mkGenerateConfig {
  dmtNavStyle : JsVal;
  exportCondition : JsVal;
  output : JsVal;
  packageName : JsVal;
  path : JsVal;
  tsconfigPath : JsVal;
  typedocOptions : JsVal;
  typedocPath : JsVal;
  linkPlugins : JsVal
}.

(** [config.path = v] *)
Definition set_path (v : JsVal) (c : GenerateConfig) : GenerateConfig :=
  {| dmtNavStyle := dmtNavStyle c; exportCondition := exportCondition c;
     output := output c; packageName := packageName c; path := v;
     tsconfigPath := tsconfigPath c; typedocOptions := typedocOptions c;
     typedocPath := typedocPath c; linkPlugins := linkPlugins c |}.

(** [config.linkPlugins = v] *)
Definition set_linkPlugins (v : JsVal) (c : GenerateConfig) : GenerateConfig :=
  {| dmtNavStyle := dmtNavStyle c; exportCondition := exportCondition c;
     output := output c; packageName := packageName c; path := path c;
     tsconfigPath := tsconfigPath c; typedocOptions := typedocOptions c;
     typedocPath := typedocPath c; linkPlugins := v |}.

Definition newline : string := String (ascii_of_nat 10) EmptyString.

Section Functions.
Context `{Imports}.

(** [validateCompilerOptions(compilerOptions)]; [None] is [void 0]. *)
Definition validateCompilerOptions `{TypeScript}
    (compilerOptions : CompilerOptionsJson)
    : Exec unit (option CompilerOptions) (option CompilerOptions) :=
  let basePath := cwd in
  let '(options, errors) := convertCompilerOptionsFromJson compilerOptions basePath in
  when (bool_decide (0 < length errors))
    (forOf errors (λ err,
       logger Error ("[TS] " +:+ flattenDiagnosticMessageText err newline));;
     exit None);;
  mret (Some options).

(** The body of the loop over [entries] in [validateConfig]; [plugins] is the
    array it pushes to. *)
Definition linkEntry (plugins : list string) (entry : JsVal)
    : Exec GenerateConfig bool (list string) :=
  match mapGet linkPluginMap entry with
  | None =>
      logger Warn ("API Link warning: Unknown API link '" +:+ toString entry +:+ "'.");;
      mret plugins
  | Some target =>
      logger Verbose
        ("Adding API link plugin '" +:+ toString entry +:+ "': " +:+ target);;
      mret (plugins ++ [target])
  end.

(** [validateConfig(config)]; the state is the [config] object, which the
    function assigns to. *)
Definition validateConfig : Exec GenerateConfig bool bool :=
  nav ← gets dmtNavStyle;
  when (isDefined nav && negb (strictEq nav (JStr "compact"))
        && negb (strictEq nav (JStr "flat")))
    (logger Error "Error: 'dmtNavStyle' must be 'compact' or 'flat'.";; exit false);;
  cond ← gets exportCondition;
  when (negb (isString cond))
    (logger Error "Error: 'exportCondition' must be a string.";; exit false);;
  out ← gets output;
  when (negb (isString out))
    (logger Error "Error: 'output' must be a string.";; exit false);;
  pkgName ← gets packageName;
  when (isDefined pkgName && negb (isString pkgName))
    (logger Error "Error: 'packageName' must be a string.";; exit false);;
  p ← gets path;
  match p with
  | JUndefined =>
      emit (GetPackageWithPath cwd cwd);;
      match getPackageWithPath cwd cwd with
      | None =>
          logger Error ("No 'package.json' found in: " +:+ toUnix cwd);;
          exit false
      | Some (packageObj, filepath) =>
          modify (set_path (JStr (toUnix filepath)))
      end
  | JStr s =>
      let unixPath := toUnix s in
      when (negb (isFile (JStr unixPath)))
        (logger Error ("Error: 'path' is not a file; " +:+ unixPath);; exit false);;
      when (negb (regexIsDTSFile_test unixPath || regexAllowedFiles_test unixPath
                  || endsWith unixPath "package.json"))
        (logger Error
           ("Error: 'path' is not an allowed entry point or 'package.json' file; "
            +:+ unixPath);;
         exit false)
  | _ =>
      logger Error "Error: 'path' must be a string.";; exit false
  end;;
  tsconfig ← gets tsconfigPath;
  when (isDefined tsconfig && negb (isFile tsconfig))
    (logger Error ("Error: 'tsconfigPath' is not a file; " +:+ toString tsconfig);;
     exit false);;
  options ← gets typedocOptions;
  when (isDefined options && negb (isObject options))
    (logger Error "Error: 'typedocOptions' is not an object.";; exit false);;
  typedoc ← gets typedocPath;
  when (isDefined typedoc && negb (isFile typedoc))
    (logger Error ("Error: 'typedocPath' is not a file; " +:+ toString typedoc);;
     exit false);;
  links ← gets linkPlugins;
  when (isDefined links)
    (when (negb (isIterable links))
       (logger Error "Error: 'linkPlugins' must be an iterable list.";; exit false);;
     let entries := newSet (arrayFrom links) in
     when (setHas entries (JStr "dom") && setHas entries (JStr "worker"))
       (logger Error
          "API link error: You may only include either 'dom' or 'worker' for the DOM API or Web Worker API.";;
        exit false);;
     plugins ← foldOf entries [] linkEntry;
     modify (set_linkPlugins (JArr (JStr <$> plugins))));;
  mret true.

End Functions.

End Validation.

(** ** data/PackageJson.js *)

Module PackageJson.

(** The private fields of a [PackageJson] instance; [T] is what an
    [ExportMap] maps its keys to. *)
Record PackageJson (T : Type) : Type := mkPackageJson {
  dirpath : string;
  entryPoints : gset string;
  exportCondition : JsVal;
  exportMap : option (gmap string T);
  packageFilepath : string;
  packageObj : PackageObj
}.
Arguments mkPackageJson {T}.
Arguments dirpath {T}.
Arguments entryPoints {T}.
Arguments exportCondition {T}.
Arguments exportMap {T}.
Arguments packageFilepath {T}.
Arguments packageObj {T}.

(** What [PackageJson.js] imports. *)
Class Imports (T : Type) : Type := {
  (** [path.dirname] of [upath] *)
  dirname : string → string;
  (** [path.resolve] of [upath] *)
  resolve : string → string;
  (** [isDTSFile] of [../validation.js] *)
  isDTSFile : string → bool;
  (** [ExportMapSupport.create(this)] of [../system/index.js]: the map it
      returns and what it logs *)
  ExportMapSupport_create : PackageJson T → gmap string T * list Event
}.

(** [this.#entryPoints.add(entry)] *)
Definition add_entryPoint {T} (entry : string) (this : PackageJson T) : PackageJson T :=
  {| dirpath := dirpath this; entryPoints := {[entry]} ∪ entryPoints this;
     exportCondition := exportCondition this; exportMap := exportMap this;
     packageFilepath := packageFilepath this; packageObj := packageObj this |}.

(** [this.#exportMap = m] *)
Definition set_exportMap {T} (m : gmap string T) (this : PackageJson T) : PackageJson T :=
  {| dirpath := dirpath this; entryPoints := entryPoints this;
     exportCondition := exportCondition this; exportMap := Some m;
     packageFilepath := packageFilepath this; packageObj := packageObj this |}.

(** [this.#exportMap?.size], as a condition. *)
Definition exportMap_size {T} (this : PackageJson T) : bool :=
  match exportMap this with
  | Some m => negb (bool_decide (size m = 0))
  | None => false
  end.

(** [this.#exportMap.keys()] *)
Definition exportMap_keys {T} (this : PackageJson T) : list string :=
  match exportMap this with
  | Some m => (map_to_list m).*1
  | None => []
  end.

Section Methods.
Context {T : Type} `{Imports T}.

(** [#process()] *)
Definition process : Exec (PackageJson T) unit unit :=
  this ← gets id;
  if exportMap_size this then
    forOf (exportMap_keys this) (λ entry, modify (add_entryPoint entry))
  else if strictEq (exportCondition this) (JStr "types") then
    match types (packageObj this) with
    | JStr value =>
        logger Verbose "Loading entry point from package.json 'types' property':";;
        if negb (isDTSFile value) then
          logger Warn
            ("'types' property in package.json is not a declaration file: " +:+ value)
        else
          let resolvedPath := resolve value in
          logger Verbose resolvedPath;;
          modify (add_entryPoint (resolve resolvedPath))
    | _ =>
        match typings (packageObj this) with
        | JStr value =>
            logger Verbose "Loading entry point from package.json 'typings' property':";;
            if negb (isDTSFile value) then
              logger Warn
                ("'typings' property in package.json is not a declaration file: "
                 +:+ value)
            else
              let resolvedPath := resolve value in
              logger Verbose resolvedPath;;
              modify (add_entryPoint (resolve resolvedPath))
        | _ => mret ()
        end
    end
  else mret ().

(** The instance when the constructor has assigned its fields: no export
    map, no entry point. *)
Definition fresh (packageObj : PackageObj) (filepath : string)
    (exportCondition : JsVal) : PackageJson T :=
  {| dirpath := dirname filepath; entryPoints := ∅;
     exportCondition := exportCondition; exportMap := None;
     packageFilepath := filepath; packageObj := packageObj |}.

(** [new PackageJson(packageObj, filepath, exportCondition)]: the instance
    and what was logged while building it. *)
Definition constructor (packageObj : PackageObj) (filepath : string)
    (exportCondition : JsVal) : PackageJson T * list Event :=
  let body : Exec (PackageJson T) unit unit :=
    (if negb (bool_decide (typeof (exports packageObj) = TObject)) then
       logger Verbose "No 'exports' conditions found in 'package.json'."
     else
       this ← gets id;
       let '(m, logged) := ExportMapSupport_create this in
       forOf logged emit;;
       modify (set_exportMap m));;
    process in
  let o := call body (fresh packageObj filepath exportCondition) in
  (after o, events o).

End Methods.

(** The getters [data], [exports] and [name]; the getters [dirpath],
    [entryPoints], [exportCondition] and [exportMap] are the fields. *)
Definition data {T} (this : PackageJson T) : PackageObj := packageObj this.
Definition get_exports {T} (this : PackageJson T) : JsVal := exports (packageObj this).
Definition get_name {T} (this : PackageJson T) : JsVal := name (packageObj this).

(** How a method call ends: it returns, or a [TypeError] is thrown. *)
Inductive Completion (A : Type) : Type :=
| Returns (a : A)
| ThrowsTypeError.
Arguments Returns {A}.
Arguments ThrowsTypeError {A}.

(** [ExportMapSupport.processMapping(this, multiplePackages)] of
    [../system/index.js]: the instance after it and what it logs. *)
Class MappingSupport (T : Type) : Type := {
  ExportMapSupport_processMapping : PackageJson T → bool → PackageJson T * list Event
}.

(** [processMapping(multiplePackages = false)]; the argument is [None] when
    the caller passes none.  [this.#exportMap.size] reads a property of
    [undefined] when there is no export map, which throws. *)
Definition processMapping {T} `{MappingSupport T} (multiplePackages : option bool)
    (this : PackageJson T) : Completion (PackageJson T * list Event) :=
  let multiplePackages := default false multiplePackages in
  match exportMap this with
  | None => ThrowsTypeError
  | Some m =>
      if negb (bool_decide (size m = 0))
      then Returns (ExportMapSupport_processMapping this multiplePackages)
      else Returns (this, [])
  end.

End PackageJson.

(** ** Collaborators to run the code against

    A POSIX reading of the [upath] functions, a file system given by the list
    of its files, and a plugin registry of the shape the command line
    describes (['dom'], ['esm'] and ['worker']). *)

Module Posix.

Definition slash : ascii := "/"%char.
Definition backslash : ascii := ascii_of_nat 92.

Fixpoint mapChars (f : ascii → ascii) (s : string) : string :=
  match s with
  | EmptyString => EmptyString
  | String c r => String (f c) (mapChars f r)
  end.

(** Each run of slashes becomes one slash. *)
Fixpoint collapse (s : string) : string :=
  match s with
  | EmptyString => EmptyString
  | String c r =>
      match r with
      | String c' _ =>
          if bool_decide (c = slash) && bool_decide (c' = slash)
          then collapse r else String c (collapse r)
      | EmptyString => String c EmptyString
      end
  end.

(** [toUnix]: backslashes become slashes, then runs of slashes that do not
    start the string are collapsed. *)
Definition toUnix (s : string) : string :=
  match mapChars (λ c, if bool_decide (c = backslash) then slash else c) s with
  | EmptyString => EmptyString
  | String c r => String c (collapse r)
  end.

Fixpoint splitGo (sep : ascii) (cur : string) (s : string) : list string :=
  match s with
  | EmptyString => [String.rev cur]
  | String c r =>
      if bool_decide (c = sep) then String.rev cur :: splitGo sep EmptyString r
      else splitGo sep (String c cur) r
  end.

(** [s.split(sep)] *)
Definition split (sep : ascii) (s : string) : list string :=
  splitGo sep EmptyString s.

Definition segment (stack : list string) (seg : string) : list string :=
  if bool_decide (seg = "") || bool_decide (seg = ".") then stack
  else if bool_decide (seg = "..") then tail stack
  else seg :: stack.

Definition normalize (segs : list string) : list string :=
  reverse (foldl segment [] segs).

Definition isAbsolute (s : string) : bool :=
  match s with
  | String c _ => bool_decide (c = slash)
  | EmptyString => false
  end.

(** [resolve] from the working directory [wd]. *)
Definition resolve (wd p : string) : string :=
  let p := toUnix p in
  let full := if isAbsolute p then p else wd +:+ "/" +:+ p in
  "/" +:+ join "/" (normalize (split slash full)).

(** [dirname] of an absolute file path. *)
Definition dirname (p : string) : string :=
  "/" +:+ join "/" (removelast (normalize (split slash (toUnix p)))).

End Posix.

Module Sample.

Definition workdir : string := "/work".

(** The files of the sample file system, besides the manifest. *)
Definition files : list string :=
  ["/work/index.d.ts"; "/work/src/main.ts"; "/work/tsconfig.json"].

Definition isFileIn (fs : list string) (v : JsVal) : bool :=
  match v with
  | JStr s => bool_decide (s ∈ fs)
  | _ => false
  end.

Definition registry : gmap string string :=
  {[ "dom" := "@typhonjs-typedoc/ts-lib-docs/typedoc/ts-links/dom/2023";
     "esm" := "@typhonjs-typedoc/ts-lib-docs/typedoc/ts-links/esm/2023";
     "worker" := "@typhonjs-typedoc/ts-lib-docs/typedoc/ts-links/worker/2023" ]}.

Definition manifest : PackageObj :=
  {| exports := JUndefined; types := JStr "./index.d.ts";
     typings := JStr "./legacy.d.ts"; name := JStr "sample" |}.

(** A working directory without a [package.json]. *)
Definition bare : Validation.Imports :=
  {| Validation.cwd := workdir;
     Validation.isFile := isFileIn files;
     Validation.getPackageWithPath := λ _ _, None;
     Validation.toUnix := Posix.toUnix;
     Validation.linkPluginMap := registry |}.

(** The same directory with a [package.json] in it. *)
Definition packaged : Validation.Imports :=
  {| Validation.cwd := workdir;
     Validation.isFile := isFileIn ("/work/package.json" :: files);
     Validation.getPackageWithPath := λ _ _, Some (manifest, "/work/package.json");
     Validation.toUnix := Posix.toUnix;
     Validation.linkPluginMap := registry |}.

(** A compiler that knows two options and reports every other name. *)
Definition compiler : Validation.TypeScript :=
  {| Validation.CompilerOptionsJson := list string;
     Validation.CompilerOptions := list string;
     Validation.MessageText := string;
     Validation.convertCompilerOptionsFromJson := λ json _,
       let known := λ o : string, bool_decide (o ∈ ["strict"; "declaration"]) in
       (filter (λ o, known o = true) json,
        (λ o, "Unknown compiler option '" +:+ o +:+ "'.")
          <$> filter (λ o, known o = false) json);
     Validation.flattenDiagnosticMessageText := λ msg _, msg |}.

(** Modelled from the spec: the target a condition sub-tree has, for
    [ExportMapSupport], which is not among the sources.  A string is the
    target.  A condition object gives the target of the first condition of
    the precedence order [order] that it has a key for and that leads to a
    target; nested condition objects are resolved in the same way. *)
Fixpoint exportTarget (order : list string) (v : JsVal) : option string :=
  match v with
  | JStr target => Some target
  | JObj props =>
      (fix pick (names : list string) : option string :=
         match names with
         | [] => None
         | n :: names' =>
             match
               (fix find (l : list (string * JsVal)) : option string :=
                  match l with
                  | [] => None
                  | (k, v') :: l' =>
                      if bool_decide (k = n) then exportTarget order v' else find l'
                  end) props
             with
             | Some target => Some target
             | None => pick names'
             end
         end) order
  | _ => None
  end.

(** A subpath key starts with a dot. *)
Definition isSubpath (k : string) : bool :=
  match k with
  | String c _ => bool_decide (c = "."%char)
  | EmptyString => false
  end.

(** Of the entries with the same key the last one is kept. *)
Fixpoint lastWins {A} (l : list (string * A)) : list (string * A) :=
  match l with
  | [] => []
  | (k, a) :: l' =>
      if existsb (λ kv : string * A, bool_decide (kv.1 = k)) l' then lastWins l'
      else (k, a) :: lastWins l'
  end.

(** The keys that are declared again further on. *)
Fixpoint duplicates {A} (l : list (string * A)) : list string :=
  match l with
  | [] => []
  | (k, _) :: l' =>
      if existsb (λ kv : string * A, bool_decide (kv.1 = k)) l' then k :: duplicates l'
      else duplicates l'
  end.

(** Modelled from the spec: the export map of [ExportMapSupport.create] and
    its warnings, for the manifest directory [dir] and the precedence order
    [order].  The map is keyed by the resolved file path, since [#process]
    takes the keys as entry points, and holds the export key.  A single string
    is the ["."] export.  An object whose keys are subpaths has an export for
    each subpath that has a target, the last declaration of a subpath winning
    with a warning; any other object is the condition tree of ["."].  What is
    not an object gives the empty map. *)
Definition exportMapOf (dir : string) (order : list string) (exportsTree : JsVal)
    : gmap string string * list Event :=
  match exportsTree with
  | JStr target => ({[ Posix.resolve dir target := "." ]}, [])
  | JObj props =>
      if forallb (λ kv : string * JsVal, isSubpath kv.1) props then
        (list_to_map
           (omap (λ kv : string * JsVal,
                    (λ target, (Posix.resolve dir target, kv.1))
                      <$> exportTarget order kv.2) (lastWins props)),
         (λ k, Log Warn ("Duplicate export subpath '" +:+ k +:+ "': the last one is used."))
           <$> duplicates props)
      else
        (match exportTarget order exportsTree with
         | Some target => {[ Posix.resolve dir target := "." ]}
         | None => ∅
         end, [])
  | _ => (∅, [])
  end.

(** The precedence order decides, not the order of the keys. *)
Definition exportTarget_order_sample : option string :=
  exportTarget ["types"; "default"]
    (JObj [("default", JStr "./a.js"); ("types", JStr "./b.d.ts")]).

(** [PackageJson.js] in the sample directory.  [isDTSFile], which the text of
    [validation.js] at hand does not define, is the test of [regexIsDTSFile];
    the precedence order is the export condition, then ["default"]. *)
Definition collector : PackageJson.Imports string :=
  {| PackageJson.dirname := Posix.dirname;
     PackageJson.resolve := Posix.resolve workdir;
     PackageJson.isDTSFile := Validation.regexIsDTSFile_test;
     PackageJson.ExportMapSupport_create := λ this,
       exportMapOf (PackageJson.dirpath this)
         [toString (PackageJson.exportCondition this); "default"]
         (exports (PackageJson.packageObj this)) |}.

(** A mapping support that logs the call and leaves the instance. *)
Definition mapping : PackageJson.MappingSupport string :=
  {| PackageJson.ExportMapSupport_processMapping := λ this multiplePackages,
       (this, [Log Verbose (if multiplePackages then "mapping: multiple packages"
                            else "mapping: single package")]) |}.

(** A manifest with conditional exports. *)
Definition conditional : PackageObj :=
  {| exports :=
       JObj [(".", JObj [("types", JStr "./index.d.ts"); ("import", JStr "./index.js")]);
             ("./sub", JObj [("types", JStr "./sub/index.d.ts")])];
     types := JUndefined; typings := JUndefined; name := JStr "sample" |}.

(** A manifest whose [exports] has conditions at the top, none of them
    ["types"] or ["default"]. *)
Definition scripted : PackageObj :=
  {| exports := JObj [("import", JStr "./index.mjs"); ("require", JStr "./index.cjs")];
     types := JUndefined; typings := JUndefined; name := JStr "sample" |}.

(** A manifest whose [exports] is a single string. *)
Definition single : PackageObj :=
  {| exports := JStr "./index.d.ts"; types := JStr "./types/main.d.ts";
     typings := JUndefined; name := JStr "sample" |}.

(** A manifest whose [types] is not a declaration file. *)
Definition script : PackageObj :=
  {| exports := JUndefined; types := JStr "./index.js";
     typings := JStr "./index.d.ts"; name := JStr "sample" |}.

(** A request that names its entry point. *)
Definition request : Validation.GenerateConfig :=
  {| Validation.dmtNavStyle := JUndefined;
     Validation.exportCondition := JStr "types";
     Validation.output := JStr "docs";
     Validation.packageName := JUndefined;
     Validation.path := JStr "/work/index.d.ts";
     Validation.tsconfigPath := JUndefined;
     Validation.typedocOptions := JUndefined;
     Validation.typedocPath := JUndefined;
     Validation.linkPlugins := JUndefined |}.

(** The request with a list of link plugins. *)
Definition linked (plugins : list string) : Validation.GenerateConfig :=
  Validation.set_linkPlugins (JArr (JStr <$> plugins)) request.

(** The request that leaves the entry point to the manifest. *)
Definition discovering : Validation.GenerateConfig :=
  Validation.set_path JUndefined request.

(** The discovering request with a [tsconfigPath] that is not a file. *)
Definition misconfigured : Validation.GenerateConfig :=
  {| Validation.dmtNavStyle := JUndefined;
     Validation.exportCondition := JStr "types";
     Validation.output := JStr "docs";
     Validation.packageName := JUndefined;
     Validation.path := JUndefined;
     Validation.tsconfigPath := JStr "/work/missing.json";
     Validation.typedocOptions := JUndefined;
     Validation.typedocPath := JUndefined;
     Validation.linkPlugins := JUndefined |}.

(** A manifest with [exports: null] and a [types] property. *)
Definition nulled : PackageObj :=
  {| exports := JNull; types := JStr "./index.d.ts";
     typings := JUndefined; name := JStr "sample" |}.

(** A manifest with [typings] alone. *)
Definition legacy : PackageObj :=
  {| exports := JUndefined; types := JUndefined;
     typings := JStr "./legacy.d.ts"; name := JStr "sample" |}.

(** A manifest with a name and nothing else. *)
Definition blank : PackageObj :=
  {| exports := JUndefined; types := JUndefined;
     typings := JUndefined; name := JStr "sample" |}.


(** A request without [output]. *)
Definition outputless : Validation.GenerateConfig :=
  {| Validation.dmtNavStyle := JStr "flat";
     Validation.exportCondition := JStr "types";
     Validation.output := JUndefined;
     Validation.packageName := JUndefined;
     Validation.path := JUndefined;
     Validation.tsconfigPath := JUndefined;
     Validation.typedocOptions := JUndefined;
     Validation.typedocPath := JUndefined;
     Validation.linkPlugins := JUndefined |}.

End Sample.

(** ** Vocabulary of the statements *)

(** The lines [#process] logs for the property [prop]. *)
Definition loading (prop : string) : Event :=
  Log Verbose ("Loading entry point from package.json '" +:+ prop +:+ "' property':").

Definition rejected (prop value : string) : Event :=
  Log Warn ("'" +:+ prop +:+ "' property in package.json is not a declaration file: "
            +:+ value).

(** The manifest with its [exports] replaced. *)
Definition with_exports (v : JsVal) (pkg : PackageObj) : PackageObj :=
  {| exports := v; types := types pkg; typings := typings pkg; name := name pkg |}.

(** The instance with its entry points replaced. *)
Definition with_entryPoints {T} (points : gset string)
    (this : PackageJson.PackageJson T) : PackageJson.PackageJson T :=
  {| PackageJson.dirpath := PackageJson.dirpath this;
     PackageJson.entryPoints := points;
     PackageJson.exportCondition := PackageJson.exportCondition this;
     PackageJson.exportMap := PackageJson.exportMap this;
     PackageJson.packageFilepath := PackageJson.packageFilepath this;
     PackageJson.packageObj := PackageJson.packageObj this |}.

(** An error line of the logger. *)
Definition isError (e : Event) : bool :=
  match e with
  | Log Error _ => true
  | _ => false
  end.

(** The names an explicit [path] may end in: those of [regexAllowedFiles],
    the one [regexIsDTSFile] adds to them, and [package.json]. *)
Definition allowedSuffixes : list string :=
  [".js"; ".mjs"; ".ts"; ".mts"; ".d.cts"; "package.json"].

(** The checks of [validateConfig], by group, as the conditions the code
    tests. *)
Section Checks.
Context `{Validation.Imports}.
Import Validation.

(** The four checks before [path]: [dmtNavStyle], [exportCondition],
    [output] and [packageName] pass. *)
Definition headerOk (c : GenerateConfig) : bool :=
  negb (isDefined (dmtNavStyle c) && negb (strictEq (dmtNavStyle c) (JStr "compact"))
        && negb (strictEq (dmtNavStyle c) (JStr "flat")))
  && isString (exportCondition c)
  && isString (output c)
  && negb (isDefined (packageName c) && negb (isString (packageName c))).

(** An explicit [path] passes: it is a file and has an allowed name. *)
Definition explicitPathOk (s : string) : bool :=
  isFile (JStr (toUnix s))
  && (regexIsDTSFile_test (toUnix s) || regexAllowedFiles_test (toUnix s)
      || endsWith (toUnix s) "package.json").

(** The checks between [path] and [linkPlugins]: [tsconfigPath],
    [typedocOptions] and [typedocPath] pass. *)
Definition filesOk (c : GenerateConfig) : bool :=
  negb (isDefined (tsconfigPath c) && negb (isFile (tsconfigPath c)))
  && negb (isDefined (typedocOptions c) && negb (isObject (typedocOptions c)))
  && negb (isDefined (typedocPath c) && negb (isFile (typedocPath c))).

(** ['dom'] and ['worker'] are both among the entries. *)
Definition domAndWorker (entries : list JsVal) : bool :=
  setHas entries (JStr "dom") && setHas entries (JStr "worker").

(** [linkPlugins] passes: unset, or an iterable without both ['dom'] and
    ['worker']. *)
Definition linksOk (c : GenerateConfig) : bool :=
  negb (isDefined (linkPlugins c))
  || isIterable (linkPlugins c) && negb (domAndWorker (newSet (arrayFrom (linkPlugins c)))).

(** What the loop over the entries logs for one entry. *)
Definition linkNote (entry : JsVal) : Event :=
  match mapGet linkPluginMap entry with
  | None => Log Warn ("API Link warning: Unknown API link '" +:+ toString entry +:+ "'.")
  | Some target =>
      Log Verbose ("Adding API link plugin '" +:+ toString entry +:+ "': " +:+ target)
  end.

(** The module identifiers of the entries the registry knows. *)
Definition translate (entries : list JsVal) : list string :=
  omap (mapGet linkPluginMap) entries.


Definition exclusiveError : Event :=
  Log Error
    "API link error: You may only include either 'dom' or 'worker' for the DOM API or Web Worker API.".

(** The [path] step: the request and the events after it, when it passes. *)
Definition pathStep (c : GenerateConfig) : option (GenerateConfig * list Event) :=
  match path c with
  | JUndefined =>
      match getPackageWithPath cwd cwd with
      | Some (_, filepath) =>
          Some (set_path (JStr (toUnix filepath)) c, [GetPackageWithPath cwd cwd])
      | None => None
      end
  | JStr s => if explicitPathOk s then Some (c, []) else None
  | _ => None
  end.

(** The [linkPlugins] step on a request that passed the other checks. *)
Definition linkStep (c : GenerateConfig) : bool * GenerateConfig * list Event :=
  match linkPlugins c with
  | JUndefined => (true, c, [])
  | JArr elems =>
      if domAndWorker (newSet elems) then (false, c, [exclusiveError])
      else (true, set_linkPlugins (JArr (JStr <$> translate (newSet elems))) c,
            linkNote <$> newSet elems)
  | _ => (false, c, [Log Error "Error: 'linkPlugins' must be an iterable list."])
  end.

End Checks.

(** * Properties *)

(** ** Running a method body *)

Lemma forOf_emit {S R} (l : list Event) (s : S) :
  forOf (R:=R) l emit s = (inl (), s, l).
Proof.
  induction l as [|e l IH]; [done|].
  simpl. unfold mbind, Exec_bind, emit at 1. by rewrite IH.
Qed.

Lemma strictEq_eq (a b : JsVal) : strictEq a b = true → a = b.
Proof.
  destruct a, b; simpl; try done; intros E%bool_decide_eq_true; by subst.
Qed.

Lemma strictEq_str (v : JsVal) (s : string) :
  strictEq v (JStr s) = true ↔ v = JStr s.
Proof.
  split; [apply strictEq_eq|]. intros ->. simpl. by apply bool_decide_eq_true.
Qed.

Lemma strictEq_str_ne (v : JsVal) (s : string) :
  v ≠ JStr s → strictEq v (JStr s) = false.
Proof.
  intros Hne. destruct (strictEq v (JStr s)) eqn:E; [|done].
  by apply strictEq_str in E.
Qed.

Lemma forOf_logger {S R A} (lvl : Level) (f : A → string) (l : list A) (s : S) :
  forOf (R:=R) l (λ x, logger lvl (f x)) s = (inl (), s, (λ x, Log lvl (f x)) <$> l).
Proof.
  induction l as [|x l IH]; [done|].
  simpl. unfold mbind, Exec_bind, logger at 1, emit at 1. by rewrite IH.
Qed.

Ltac run :=
  unfold call, result, after, events, when, logger, emit, exit, gets, modify,
    mbind, mret, Exec_bind, Exec_ret in *; simpl in *.

(** Rewriting with what is known of the conditions the code tests. *)
Ltac known :=
  match goal with
  | H : ?b = true |- context [?b] => rewrite H
  | H : ?b = false |- context [?b] => rewrite H
  | H : ?x = Some _ |- context [?x] => rewrite H
  | H : ?x = None |- context [?x] => rewrite H
  end.

Ltac normalize_checks :=
  repeat match goal with
    | H : _ && _ = true |- _ => apply andb_prop in H as [? ?]
    | H : negb _ = true |- _ => apply negb_true_iff in H
    | H : negb _ = false |- _ => apply negb_false_iff in H
    end.

(** ** The entry-point collector *)

Section Collector.
Context {T : Type} `{PackageJson.Imports T}.
Import PackageJson.

Lemma process_off (this : PackageJson T) :
  exportMap_size this = false →
  exportCondition this ≠ JStr "types" →
  call process this = ((), this, []).
Proof.
  intros Hsize Hcond. unfold process. run.
  by rewrite Hsize, (strictEq_str_ne _ _ Hcond).
Qed.

(** The fallback with a string under [types]. *)
Lemma process_types (this : PackageJson T) (t : string) :
  exportMap_size this = false →
  exportCondition this = JStr "types" →
  types (packageObj this) = JStr t →
  call process this
  = if isDTSFile t
    then ((), add_entryPoint (resolve (resolve t)) this,
          [loading "types"; Log Verbose (resolve t)])
    else ((), this, [loading "types"; rejected "types" t]).
Proof.
  intros Hsize Hcond Ht. unfold process. run.
  rewrite Hsize, Hcond, Ht. simpl. by destruct (isDTSFile t).
Qed.

(** The fallback with a string under [typings] and none under [types]. *)
Lemma process_typings (this : PackageJson T) (t : string) :
  exportMap_size this = false →
  exportCondition this = JStr "types" →
  typeof (types (packageObj this)) ≠ TString →
  typings (packageObj this) = JStr t →
  call process this
  = if isDTSFile t
    then ((), add_entryPoint (resolve (resolve t)) this,
          [loading "typings"; Log Verbose (resolve t)])
    else ((), this, [loading "typings"; rejected "typings" t]).
Proof.
  intros Hsize Hcond Hty Ht. unfold process. run.
  rewrite Hsize, Hcond, Ht. simpl.
  destruct (types (packageObj this)); try done; by destruct (isDTSFile t).
Qed.

(** Without an object under [exports] the constructor logs one line and
    processes the fresh instance. *)
Lemma constructor_plain (pkg : PackageObj) (filepath : string) (cond : JsVal) :
  typeof (exports pkg) ≠ TObject →
  constructor pkg filepath cond
  = (after (call process (fresh pkg filepath cond)),
     Log Verbose "No 'exports' conditions found in 'package.json'."
       :: events (call process (fresh pkg filepath cond))).
Proof.
  intros Hty. unfold constructor.
  rewrite bool_decide_eq_false_2 by done. run.
  by destruct (process (fresh pkg filepath cond)) as [[[[]|[]] ?] ?].
Qed.

(** C1. A manifest whose [exports] is not an object, processed under the
    condition ["types"], with a declaration file under [types] and a
    different one under [typings]: the entry points are exactly the resolved
    [types] path, and the log shows the [types] branch alone.  [path.resolve]
    is applied twice by the code; it is taken to leave the resolved path as
    it is. *)
Theorem types_precedes_typings (pkg : PackageObj) (filepath t ty : string) :
  typeof (exports pkg) ≠ TObject →
  types pkg = JStr t →
  typings pkg = JStr ty →
  t ≠ ty →
  isDTSFile t = true →
  isDTSFile ty = true →
  resolve (resolve t) = resolve t →
  entryPoints (constructor pkg filepath (JStr "types")).1 = {[ resolve t ]}
  ∧ (constructor pkg filepath (JStr "types")).2
    = [Log Verbose "No 'exports' conditions found in 'package.json'.";
       loading "types"; Log Verbose (resolve t)].
Proof.
  intros Hexp Ht _ _ Hdts _ Hidem.
  rewrite (constructor_plain _ _ _ Hexp).
  rewrite (process_types _ t), Hdts by done.
  unfold after, events. simpl. rewrite Hidem. split; [|done].
  by rewrite (right_id_L ∅ (∪)).
Qed.

(** C2, as the code has it. A manifest whose [exports] is a single string
    gets no export map: the constructor logs that there are no export
    conditions, and the entry points and the log are those of the same
    manifest without [exports], which come from the [types]/[typings]
    properties alone. *)
Theorem exports_string_is_ignored (pkg : PackageObj) (filepath e : string)
    (cond : JsVal) :
  let o := constructor (with_exports (JStr e) pkg) filepath cond in
  let o' := constructor (with_exports JUndefined pkg) filepath cond in
  exportMap o.1 = None ∧ entryPoints o.1 = entryPoints o'.1 ∧ o.2 = o'.2
  ∧ head o.2 = Some (Log Verbose "No 'exports' conditions found in 'package.json'.").
Proof.
  cbv zeta. rewrite !constructor_plain by done.
  unfold process, fresh. run.
  destruct (strictEq cond (JStr "types")); [|done].
  destruct (types pkg) as [| | | |t| |]; simpl;
    try (destruct (typings pkg) as [| | | |t| |]; simpl); try done;
    by destruct (isDTSFile t).
Qed.

(** C3, as the code has it. In the fallback under the condition ["types"],
    a candidate that fails the declaration-file filter, be it [types] or, when
    [types] is not a string, [typings], is reported by a warning and is not
    added: [#process] leaves the instance, and so its entry points, as they
    were. *)
Theorem rejected_candidate_is_excluded (this : PackageJson T) (prop value : string) :
  exportMap_size this = false →
  exportCondition this = JStr "types" →
  (prop = "types" ∧ types (packageObj this) = JStr value)
  ∨ (prop = "typings" ∧ typeof (types (packageObj this)) ≠ TString
     ∧ typings (packageObj this) = JStr value) →
  isDTSFile value = false →
  call process this = ((), this, [loading prop; rejected prop value])
  ∧ entryPoints (after (call process this)) = entryPoints this.
Proof.
  intros Hsize Hcond [[-> Ht]|(-> & Hty & Ht)] Hdts.
  - by rewrite (process_types _ value), Hdts.
  - by rewrite (process_typings _ value), Hdts.
Qed.

(** C10. In the fallback, a [types] string that fails the filter ends
    [#process] with the warning for [types]: whatever [typings] holds, it is
    not looked at and nothing is added.  Under any condition other than
    ["types"] the fallback does nothing at all.  A manifest without an
    [exports] object is therefore left with no entry point in both cases. *)
Theorem typings_not_consulted :
  (∀ (this : PackageJson T) (t : string),
     exportMap_size this = false →
     exportCondition this = JStr "types" →
     types (packageObj this) = JStr t →
     isDTSFile t = false →
     call process this = ((), this, [loading "types"; rejected "types" t]))
  ∧ (∀ this : PackageJson T,
       exportMap_size this = false →
       exportCondition this ≠ JStr "types" →
       call process this = ((), this, []))
  ∧ (∀ (pkg : PackageObj) (filepath : string) (cond : JsVal),
       typeof (exports pkg) ≠ TObject →
       cond ≠ JStr "types" ∨ (∃ t, types pkg = JStr t ∧ isDTSFile t = false) →
       entryPoints (constructor pkg filepath cond).1 = ∅).
Proof.
  split_and!.
  - intros this t Hsize Hcond Ht Hdts. by rewrite (process_types _ t), Hdts.
  - apply process_off.
  - intros pkg filepath cond Hexp Hcase.
    rewrite (constructor_plain _ _ _ Hexp). simpl.
    destruct (decide (strictEq cond (JStr "types") = true)) as [Heq%strictEq_str|Hne].
    + destruct Hcase as [?|(t & Ht & Hdts)]; [done|]. subst cond.
      by rewrite (process_types _ t), Hdts.
    + rewrite process_off; [done..|]. simpl. intros ->. apply Hne. by apply strictEq_str.
Qed.

(** ** Further properties of the collector *)

Lemma add_entryPoint_with (entry : string) (this : PackageJson T) :
  add_entryPoint entry this = with_entryPoints ({[entry]} ∪ entryPoints this) this.
Proof. done. Qed.

(** The loop over the keys of the export map adds them all. *)
Lemma forOf_add_entryPoint (keys : list string) (this : PackageJson T) :
  forOf (R:=unit) keys (λ entry, modify (add_entryPoint entry)) this
  = (inl (), with_entryPoints (list_to_set keys ∪ entryPoints this) this, []).
Proof.
  revert this. induction keys as [|k keys IH]; intros this; simpl.
  - destruct this. unfold with_entryPoints. simpl. by rewrite (left_id_L ∅ (∪)).
  - unfold mbind, Exec_bind, modify at 1. rewrite IH. simpl.
    destruct this as [d points c m f o]. unfold with_entryPoints. simpl.
    by rewrite (assoc_L (∪)), (comm_L (∪) (list_to_set keys)).
Qed.

Lemma exportMap_keys_dom (this : PackageJson T) (m : gmap string T) :
  exportMap this = Some m → list_to_set (exportMap_keys this) = dom m.
Proof.
  intros Hm. unfold exportMap_keys. rewrite Hm. apply set_eq. intros k.
  rewrite elem_of_list_to_set, list_elem_of_fmap, elem_of_dom. split.
  - intros ([k' v] & -> & Hin%elem_of_map_to_list). by exists v.
  - intros [v Hv]. exists (k, v). split; [done|]. by apply elem_of_map_to_list.
Qed.

(** With a non-empty export map [#process] adds its keys and logs nothing. *)
Lemma process_exports (this : PackageJson T) (m : gmap string T) :
  exportMap this = Some m →
  m ≠ ∅ →
  call process this = ((), with_entryPoints (dom m ∪ entryPoints this) this, []).
Proof.
  intros Hm Hne.
  assert (exportMap_size this = true) as Hsize.
  { unfold exportMap_size. rewrite Hm. apply negb_true_iff, bool_decide_eq_false.
    by intros ?%map_size_empty_iff. }
  unfold process. run. rewrite Hsize, forOf_add_entryPoint.
  by rewrite (exportMap_keys_dom _ m).
Qed.

(** The fallback with no string under [types] nor under [typings]. *)
Lemma process_none (this : PackageJson T) :
  exportMap_size this = false →
  typeof (types (packageObj this)) ≠ TString →
  typeof (typings (packageObj this)) ≠ TString →
  call process this = ((), this, []).
Proof.
  intros Hsize Ht Hty. unfold process. run. rewrite Hsize.
  destruct (strictEq _ _); [|done].
  destruct (types (packageObj this)); try done;
    by destruct (typings (packageObj this)).
Qed.

(** With an object under [exports] the constructor asks for the export map
    and processes the instance that holds it. *)
Lemma constructor_object (pkg : PackageObj) (filepath : string) (cond : JsVal) :
  typeof (exports pkg) = TObject →
  constructor pkg filepath cond
  = (after (call process
              (set_exportMap (ExportMapSupport_create (fresh pkg filepath cond)).1
                 (fresh pkg filepath cond))),
     (ExportMapSupport_create (fresh pkg filepath cond)).2
     ++ events (call process
                  (set_exportMap (ExportMapSupport_create (fresh pkg filepath cond)).1
                     (fresh pkg filepath cond)))).
Proof.
  intros Hty. unfold constructor.
  rewrite bool_decide_eq_true_2 by done.
  unfold call, after, events, mbind, Exec_bind, gets. simpl.
  destruct (ExportMapSupport_create (fresh pkg filepath cond)) as [m logged].
  rewrite forOf_emit. run. rewrite app_nil_r.
  by destruct (process (set_exportMap m (fresh pkg filepath cond))) as [[[[]|[]] ?] ?].
Qed.

(** In the fallback [#process] looks at the condition, at [types] and at
    [typings] only. *)
Lemma process_fallback_agree (this this' : PackageJson T) :
  exportMap_size this = false →
  exportMap_size this' = false →
  exportCondition this = exportCondition this' →
  types (packageObj this) = types (packageObj this') →
  typings (packageObj this) = typings (packageObj this') →
  entryPoints this = entryPoints this' →
  entryPoints (after (call process this)) = entryPoints (after (call process this'))
  ∧ events (call process this) = events (call process this').
Proof.
  intros Hs Hs' Hc Ht Hty He. unfold process. run.
  rewrite Hs, Hs', Hc, Ht, Hty.
  destruct (strictEq _ _); [|done].
  destruct (types (packageObj this')) as [| | | |t| |]; simpl;
    try (destruct (typings (packageObj this')) as [| | | |t| |]; simpl); try done;
    destruct (isDTSFile t); simpl; by rewrite ?He.
Qed.

(** What [#process] leaves of the instance: everything but the entry points,
    which it only adds to. *)
Lemma process_frame (this : PackageJson T) :
  ∃ points, after (call process this) = with_entryPoints (points ∪ entryPoints this) this
            ∧ (exportMap_size this = false → size points ≤ 1).
Proof.
  unfold process. run. destruct (exportMap_size this) eqn:Hsize.
  - rewrite forOf_add_entryPoint. simpl. by eexists.
  - assert (this = with_entryPoints (∅ ∪ entryPoints this) this) as Hsame.
    { destruct this. unfold with_entryPoints. simpl. by rewrite (left_id_L ∅ (∪)). }
    assert (∀ p, size ({[p]} : gset string) ≤ 1) as Hone.
    { intros p. by rewrite size_singleton. }
    assert (∃ points, this = with_entryPoints (points ∪ entryPoints this) this
                      ∧ (false = false → size points ≤ 1)) as Hnone.
    { exists ∅. split; [done|]. intros _. rewrite size_empty. lia. }
    destruct (strictEq _ _); [|done].
    destruct (types (packageObj this)) as [| | | |t| |]; simpl;
      try (destruct (typings (packageObj this)) as [| | | |t| |]; simpl);
      try done;
      (destruct (isDTSFile t); simpl; [|done]);
      by exists {[resolve (resolve t)]}.
Qed.

(** X1. An export map that is not empty decides the entry points: they are its
    keys, the log is that of [ExportMapSupport.create], and neither the
    condition nor [types] nor [typings] plays a part. *)
Theorem export_map_decides (pkg : PackageObj) (filepath : string) (cond : JsVal)
    (m : gmap string T) (logged : list Event) :
  typeof (exports pkg) = TObject →
  ExportMapSupport_create (fresh pkg filepath cond) = (m, logged) →
  m ≠ ∅ →
  exportMap (constructor pkg filepath cond).1 = Some m
  ∧ entryPoints (constructor pkg filepath cond).1 = dom m
  ∧ (constructor pkg filepath cond).2 = logged.
Proof.
  intros Hty Hcreate Hne. rewrite (constructor_object _ _ _ Hty), Hcreate. simpl.
  rewrite (process_exports _ m) by done. unfold after, events. simpl.
  split_and!; [done| |by rewrite app_nil_r]. by rewrite (right_id_L ∅ (∪)).
Qed.

(** X2. An empty export map leaves the entry points to the fallback: they are
    those of the same manifest without [exports].  This is also what happens
    to [exports: null], which [typeof] calls an object. *)
Theorem empty_export_map_falls_back (pkg : PackageObj) (filepath : string)
    (cond : JsVal) (logged : list Event) :
  typeof (exports pkg) = TObject →
  ExportMapSupport_create (fresh pkg filepath cond) = (∅, logged) →
  entryPoints (constructor pkg filepath cond).1
  = entryPoints (constructor (with_exports JUndefined pkg) filepath cond).1
  ∧ (constructor pkg filepath cond).2
    = logged ++ tail (constructor (with_exports JUndefined pkg) filepath cond).2.
Proof.
  intros Hty Hcreate.
  rewrite (constructor_object _ _ _ Hty), Hcreate, constructor_plain by done. simpl.
  destruct (process_fallback_agree
              (set_exportMap ∅ (fresh pkg filepath cond))
              (fresh (with_exports JUndefined pkg) filepath cond))
    as [-> ->]; done.
Qed.

(** X3. When [types] is not a string, a declaration file under [typings] is the
    one entry point. *)
Theorem typings_used_without_types (pkg : PackageObj) (filepath ty : string) :
  typeof (exports pkg) ≠ TObject →
  typeof (types pkg) ≠ TString →
  typings pkg = JStr ty →
  isDTSFile ty = true →
  resolve (resolve ty) = resolve ty →
  entryPoints (constructor pkg filepath (JStr "types")).1 = {[ resolve ty ]}
  ∧ (constructor pkg filepath (JStr "types")).2
    = [Log Verbose "No 'exports' conditions found in 'package.json'.";
       loading "typings"; Log Verbose (resolve ty)].
Proof.
  intros Hexp Ht Hty Hdts Hidem.
  rewrite (constructor_plain _ _ _ Hexp).
  rewrite (process_typings _ ty), Hdts by done.
  unfold after, events. simpl. rewrite Hidem. split; [|done].
  by rewrite (right_id_L ∅ (∪)).
Qed.

(** X4. A manifest with no [exports] object and no string under [types] or
    [typings] is built without complaint: no entry point, and the one line
    about the missing export conditions. *)
Theorem nothing_to_collect (pkg : PackageObj) (filepath : string) (cond : JsVal) :
  typeof (exports pkg) ≠ TObject →
  typeof (types pkg) ≠ TString →
  typeof (typings pkg) ≠ TString →
  constructor pkg filepath cond
  = (fresh pkg filepath cond,
     [Log Verbose "No 'exports' conditions found in 'package.json'."]).
Proof.
  intros Hexp Ht Hty. rewrite (constructor_plain _ _ _ Hexp).
  by rewrite process_none.
Qed.

Lemma constructor_without_map (pkg : PackageObj) (filepath : string) (cond : JsVal) :
  typeof (exports pkg) ≠ TObject →
  exportMap (constructor pkg filepath cond).1 = None.
Proof.
  intros Hty. rewrite (constructor_plain _ _ _ Hty). simpl.
  by destruct (process_frame (fresh pkg filepath cond)) as (points & -> & _).
Qed.

(** X5. What the getters of a new instance return: the arguments, the directory
    of the file path, and an export map exactly when [typeof exports] is
    ['object']. *)
Theorem constructor_fields (pkg : PackageObj) (filepath : string) (cond : JsVal) :
  data (constructor pkg filepath cond).1 = pkg
  ∧ exportCondition (constructor pkg filepath cond).1 = cond
  ∧ dirpath (constructor pkg filepath cond).1 = dirname filepath
  ∧ (exportMap (constructor pkg filepath cond).1 = None
     ↔ typeof (exports pkg) ≠ TObject).
Proof.
  destruct (decide (typeof (exports pkg) = TObject)) as [Hty|Hty].
  - rewrite (constructor_object _ _ _ Hty). simpl.
    destruct (process_frame
                (set_exportMap (ExportMapSupport_create (fresh pkg filepath cond)).1
                   (fresh pkg filepath cond))) as (points & -> & _).
    by split_and!.
  - rewrite (constructor_plain _ _ _ Hty). simpl.
    destruct (process_frame (fresh pkg filepath cond)) as (points & -> & _).
    done.
Qed.

(** X6. The fallback never collects more than one entry point. *)
Theorem fallback_at_most_one (pkg : PackageObj) (filepath : string) (cond : JsVal) :
  exportMap_size (constructor pkg filepath cond).1 = false →
  size (entryPoints (constructor pkg filepath cond).1) ≤ 1.
Proof.
  destruct (decide (typeof (exports pkg) = TObject)) as [Hty|Hty].
  - rewrite (constructor_object _ _ _ Hty). simpl.
    destruct (process_frame
                (set_exportMap (ExportMapSupport_create (fresh pkg filepath cond)).1
                   (fresh pkg filepath cond))) as (points & -> & Hone).
    simpl. intros Hsize. rewrite (right_id_L ∅ (∪)). by apply Hone.
  - rewrite (constructor_plain _ _ _ Hty). simpl.
    destruct (process_frame (fresh pkg filepath cond)) as (points & -> & Hone).
    simpl. intros _. rewrite (right_id_L ∅ (∪)). by apply Hone.
Qed.

(** X7. [processMapping] on an instance built from a manifest whose [exports] is
    not an object throws: there is no export map whose [size] it could read.
    On an instance with an empty export map it returns without calling
    [ExportMapSupport.processMapping]; with entries in the map and no
    argument it calls it for a single package. *)
Theorem processMapping_needs_export_map `{MappingSupport T}
    (pkg : PackageObj) (filepath : string) (cond : JsVal) (multiplePackages : option bool) :
  (typeof (exports pkg) ≠ TObject →
   processMapping multiplePackages (constructor pkg filepath cond).1 = ThrowsTypeError)
  ∧ (exportMap (constructor pkg filepath cond).1 = Some ∅ →
     processMapping multiplePackages (constructor pkg filepath cond).1
     = Returns ((constructor pkg filepath cond).1, []))
  ∧ (∀ m, exportMap (constructor pkg filepath cond).1 = Some m →
          m ≠ ∅ →
          processMapping None (constructor pkg filepath cond).1
          = Returns (ExportMapSupport_processMapping
                       (constructor pkg filepath cond).1 false)).
Proof.
  split_and!.
  - intros Hty%(constructor_without_map _ filepath cond).
    unfold processMapping. by rewrite Hty.
  - intros Hm. unfold processMapping. by rewrite Hm.
  - intros m Hm Hne. unfold processMapping. rewrite Hm. simpl.
    rewrite bool_decide_eq_false_2; [done|]. by intros ?%map_size_empty_iff.
Qed.

End Collector.

(** ** The configuration validator *)

Section Validator.
Context `{Validation.Imports}.
Import Validation.

Lemma setHas_foldl (v : JsVal) (l acc : list JsVal) :
  setHas (foldl setAdd acc l) v = setHas acc v || setHas l v.
Proof.
  revert acc. induction l as [|x l IH]; intros acc; simpl.
  - by rewrite orb_false_r.
  - rewrite IH. unfold setAdd. destruct (setHas acc x) eqn:Hx.
    + destruct (strictEq v x) eqn:Hv; [|done].
      apply strictEq_eq in Hv as ->. by rewrite Hx.
    + unfold setHas. rewrite existsb_app. simpl.
      by rewrite orb_false_r, orb_assoc.
Qed.

Lemma setHas_newSet (v : JsVal) (l : list JsVal) :
  setHas (newSet l) v = setHas l v.
Proof. unfold newSet. by rewrite setHas_foldl. Qed.

Lemma setHas_str (l : list JsVal) (k : string) :
  setHas l (JStr k) = true ↔ JStr k ∈ l.
Proof.
  unfold setHas. rewrite existsb_exists. split.
  - intros (x & Hin & Heq). apply strictEq_eq in Heq as <-.
    by apply list_elem_of_In.
  - intros Hin. exists (JStr k). split; [by apply list_elem_of_In|].
    simpl. by apply bool_decide_eq_true.
Qed.

Lemma foldOf_linkEntry (entries : list JsVal) (acc : list string) (c : GenerateConfig) :
  foldOf entries acc linkEntry c
  = (inl (acc ++ translate entries), c, linkNote <$> entries).
Proof.
  revert acc. induction entries as [|e l IH]; intros acc; simpl.
  - unfold translate. simpl. by rewrite app_nil_r.
  - unfold mbind, Exec_bind, linkEntry at 1, linkNote at 1, translate. simpl.
    destruct (mapGet linkPluginMap e) as [t|] eqn:He; run;
      rewrite IH; [by rewrite <- app_assoc | done].
Qed.

(** Every condition the code tests, taken both ways. *)
Ltac brute :=
  repeat (simpl;
    match goal with
    | |- context [if ?b then _ else _] => destruct b eqn:?
    | |- context [match getPackageWithPath ?a ?b with _ => _ end] =>
        destruct (getPackageWithPath a b) as [[? ?]|] eqn:?
    | |- context [match ?p with JUndefined => _ | _ => _ end] => destruct p eqn:?
    | |- context [foldOf _ _ linkEntry _] => rewrite foldOf_linkEntry
    end).

(** A request that passes the checks before [linkPlugins] ends in the
    [linkPlugins] step. *)
Lemma validateConfig_checked (c c1 : GenerateConfig) (l1 : list Event) :
  headerOk c = true →
  pathStep c = Some (c1, l1) →
  filesOk c = true →
  call validateConfig c = ((linkStep c1).1.1, (linkStep c1).1.2, l1 ++ (linkStep c1).2).
Proof.
  unfold headerOk, filesOk, pathStep, linkStep.
  destruct c as [nav cond out pkgName p ts opts td links]. simpl.
  intros Hh Hp Hf. normalize_checks.
  unfold validateConfig. run. repeat (known; simpl).
  destruct p; try discriminate Hp.
  - destruct (getPackageWithPath cwd cwd) as [[pk fp]|]; [|done].
    simplify_eq. simpl. repeat (known; simpl).
    unfold domAndWorker.
    destruct links; simpl; try done.
    destruct (setHas _ _ && setHas _ _); simpl; [done|].
    rewrite foldOf_linkEntry. simpl. by rewrite ?app_nil_r.
  - destruct (explicitPathOk s) eqn:E; [|done]. simplify_eq.
    unfold explicitPathOk in E. normalize_checks. repeat (known; simpl).
    unfold domAndWorker.
    destruct links; simpl; try done.
    destruct (setHas _ _ && setHas _ _); simpl; [done|].
    rewrite foldOf_linkEntry. simpl. by rewrite ?app_nil_r.
Qed.

(** A request is accepted only if every group of checks passes. *)
Lemma validateConfig_accepted (c : GenerateConfig) :
  result (call validateConfig c) = true →
  headerOk c = true ∧ is_Some (pathStep c) ∧ filesOk c = true ∧ linksOk c = true.
Proof.
  destruct c as [nav cond out pkgName p ts opts td links].
  unfold validateConfig. run. brute; intros Hr; try discriminate Hr.
  all: normalize_checks.
  all: unfold headerOk, filesOk, pathStep, linksOk, explicitPathOk, domAndWorker; simpl.
  all: repeat (known; simpl).
  all: done.
Qed.

Lemma linkNote_is_log (entry : JsVal) (filepath basepath : string) :
  linkNote entry ≠ GetPackageWithPath filepath basepath.
Proof. unfold linkNote. by destruct (mapGet linkPluginMap entry). Qed.


(** The checks before [linkPlugins] do not look at [linkPlugins]. *)
Lemma pathStep_set_linkPlugins (v : JsVal) (c : GenerateConfig) :
  pathStep (set_linkPlugins v c)
  = (λ o, (set_linkPlugins v o.1, o.2)) <$> pathStep c.
Proof.
  unfold pathStep. destruct c as [nav cond out pkgName p ts opts td links]. simpl.
  destruct p; try done.
  - by destruct (getPackageWithPath cwd cwd) as [[pk fp]|].
  - by destruct (explicitPathOk s).
Qed.

(** A request whose other fields are valid runs up to its [linkPlugins]. *)
Lemma validateConfig_links (c : GenerateConfig) :
  result (call validateConfig (set_linkPlugins JUndefined c)) = true →
  ∃ c1 l1,
    linkPlugins c1 = linkPlugins c
    ∧ call validateConfig (set_linkPlugins JUndefined c)
      = (true, set_linkPlugins JUndefined c1, l1)
    ∧ call validateConfig c = ((linkStep c1).1.1, (linkStep c1).1.2, l1 ++ (linkStep c1).2).
Proof.
  intros (Hh & Hp & Hf & _)%validateConfig_accepted.
  rewrite pathStep_set_linkPlugins in Hp.
  destruct (pathStep c) as [[c1' l1']|] eqn:Hp'; [|by destruct Hp]. clear Hp.
  exists c1', l1'. split_and!.
  - unfold pathStep in Hp'. destruct c as [nav cond out pkgName p ts opts td links].
    simpl in *. destruct p; try done.
    + destruct (getPackageWithPath cwd cwd) as [[pk fp]|]; by simplify_eq.
    + destruct (explicitPathOk s); by simplify_eq.
  - rewrite (validateConfig_checked _ (set_linkPlugins JUndefined c1') l1' Hh); [|by rewrite pathStep_set_linkPlugins, Hp'|done].
    unfold linkStep. simpl. by rewrite app_nil_r.
  - by apply validateConfig_checked.
Qed.

(** C4. When the TypeScript validator reports diagnostics,
    [validateCompilerOptions] returns no options and logs one error line for
    each diagnostic, in their order. *)
Theorem compiler_diagnostics_all_surfaced `{TypeScript} (json : CompilerOptionsJson) :
  (convertCompilerOptionsFromJson json cwd).2 ≠ [] →
  call (validateCompilerOptions json) ()
  = (None, (),
     (λ err, Log Error ("[TS] " +:+ flattenDiagnosticMessageText err newline))
       <$> (convertCompilerOptionsFromJson json cwd).2).
Proof.
  unfold validateCompilerOptions.
  destruct (convertCompilerOptionsFromJson json cwd) as [options errors]. simpl.
  intros Herr. destruct errors as [|e errors]; [done|].
  rewrite bool_decide_eq_true_2 by (simpl; lia).
  unfold call, when, mbind, Exec_bind.
  rewrite (forOf_logger (R:=option CompilerOptions) Error
    (λ err, "[TS] " +:+ flattenDiagnosticMessageText err newline)).
  run. by rewrite !app_nil_r.
Qed.

(** C5. A request whose [linkPlugins] holds both ['dom'] and ['worker'] is
    refused.  When its other fields are valid, that is when the request
    without [linkPlugins] is accepted, the run is that of the request
    without [linkPlugins] followed by the error about ['dom'] and
    ['worker']. *)
Theorem dom_and_worker_exclusive (c : GenerateConfig) (elems : list JsVal) :
  linkPlugins c = JArr elems →
  JStr "dom" ∈ elems →
  JStr "worker" ∈ elems →
  result (call validateConfig c) = false
  ∧ (result (call validateConfig (set_linkPlugins JUndefined c)) = true →
     events (call validateConfig c)
     = events (call validateConfig (set_linkPlugins JUndefined c)) ++ [exclusiveError]).
Proof.
  intros Hl Hdom Hworker.
  assert (domAndWorker (newSet elems) = true) as Hboth.
  { unfold domAndWorker. rewrite !setHas_newSet.
    apply andb_true_intro. split; by apply setHas_str. }
  split.
  - destruct (result (call validateConfig c)) eqn:E; [|done].
    apply validateConfig_accepted in E as (_ & _ & _ & Hok).
    unfold linksOk in Hok. rewrite Hl in Hok. simpl in Hok. by rewrite Hboth in Hok.
  - intros (c1 & l1 & Hl1 & -> & ->)%validateConfig_links.
    unfold linkStep, events. rewrite Hl1, Hl. simpl. by rewrite Hboth.
Qed.


(** With [path] unset, a request that passes the four checks before [path]
    starts with the manifest lookup in the working directory. *)
Lemma validateConfig_lookup_first (c : GenerateConfig) :
  path c = JUndefined →
  headerOk c = true →
  head (events (call validateConfig c)) = Some (GetPackageWithPath cwd cwd).
Proof.
  unfold headerOk. destruct c as [nav cond out pkgName p ts opts td links].
  simpl. intros -> Hh. normalize_checks.
  unfold validateConfig. run. repeat (known; simpl). by brute.
Qed.


Lemma setHas_elem_of (l : list JsVal) (v : JsVal) : setHas l v = true → v ∈ l.
Proof.
  unfold setHas. rewrite existsb_exists.
  intros (x & Hin & Heq). apply strictEq_eq in Heq as <-. by apply list_elem_of_In.
Qed.

Lemma elem_of_setAdd (acc : list JsVal) (x y : JsVal) :
  x ∈ setAdd acc y ↔ x ∈ acc ∨ x = y.
Proof.
  unfold setAdd. destruct (setHas acc y) eqn:Hy.
  - apply setHas_elem_of in Hy. split; [by left | by intros [?| ->]].
  - rewrite elem_of_app, list_elem_of_singleton. done.
Qed.

Lemma elem_of_newSet (x : JsVal) (l : list JsVal) : x ∈ newSet l ↔ x ∈ l.
Proof.
  unfold newSet.
  assert (∀ acc, x ∈ foldl setAdd acc l ↔ x ∈ acc ∨ x ∈ l) as Hgen.
  { induction l as [|y l IH]; intros acc; simpl.
    - rewrite elem_of_nil. tauto.
    - rewrite IH, elem_of_setAdd, elem_of_cons. tauto. }
  rewrite Hgen, elem_of_nil. tauto.
Qed.






(** After the [path] step the request passes it again without a lookup,
    provided the manifest path it may have stored is a [package.json] file
    that [toUnix] leaves as it is. *)
Lemma pathStep_again (c c0 : GenerateConfig) (l0 : list Event) :
  pathStep c = Some (c0, l0) →
  (∀ pkg filepath,
     path c = JUndefined →
     getPackageWithPath cwd cwd = Some (pkg, filepath) →
     toUnix (toUnix filepath) = toUnix filepath
     ∧ isFile (JStr (toUnix filepath)) = true
     ∧ endsWith (toUnix filepath) "package.json" = true) →
  headerOk c0 = headerOk c ∧ filesOk c0 = filesOk c
  ∧ linkPlugins c0 = linkPlugins c ∧ pathStep c0 = Some (c0, []).
Proof.
  unfold pathStep at 1. destruct c as [nav cond out pkgName p ts opts td links].
  simpl. intros Hp Henv. destruct p; try done.
  - destruct (getPackageWithPath cwd cwd) as [[pk fp]|] eqn:Hfound; [|done].
    destruct (Henv pk fp) as (Hidem & Hfile & Hname); [done..|].
    simplify_eq. split_and!; try done.
    unfold pathStep, explicitPathOk. simpl.
    by rewrite Hidem, Hfile, Hname, !orb_true_r.
  - destruct (explicitPathOk s) eqn:Hok; [|done]. simplify_eq.
    split_and!; try done. unfold pathStep. simpl. by rewrite Hok.
Qed.

Lemma translate_unknown (entries : list JsVal) :
  (∀ e, e ∈ entries → mapGet linkPluginMap e = None) → translate entries = [].
Proof.
  unfold translate. induction entries as [|e l IH]; intros Hall; simpl; [done|].
  rewrite (Hall e) by apply list_elem_of_here.
  apply IH. intros e' He'. apply Hall. by apply list_elem_of_further.
Qed.

Lemma elem_of_translate (entries : list JsVal) (t : string) :
  t ∈ translate entries → ∃ k, linkPluginMap !! k = Some t.
Proof.
  unfold translate. intros (e & _ & He)%list_elem_of_omap.
  destruct e; try done. by exists s.
Qed.

(** C8, as the code has it. Validating the result of an accepted request
    again succeeds and leaves it as it is when [linkPlugins] was unset.  When
    [linkPlugins] was set, the second run looks the module identifiers up in
    the registry as if they were plugin names: with a registry that knows
    ['dom'] and none of whose module identifiers is a plugin name, it
    succeeds and leaves an empty [linkPlugins] list.  A manifest path stored
    by the first run is taken to be a [package.json] file that [toUnix]
    leaves as it is. *)
Theorem revalidation (c : GenerateConfig) :
  result (call validateConfig c) = true →
  (∀ pkg filepath,
     path c = JUndefined →
     getPackageWithPath cwd cwd = Some (pkg, filepath) →
     toUnix (toUnix filepath) = toUnix filepath
     ∧ isFile (JStr (toUnix filepath)) = true
     ∧ endsWith (toUnix filepath) "package.json" = true) →
  let c1 := after (call validateConfig c) in
  (linkPlugins c = JUndefined →
   result (call validateConfig c1) = true ∧ after (call validateConfig c1) = c1)
  ∧ (isDefined (linkPlugins c) = true →
     (∀ k v, linkPluginMap !! k = Some v → linkPluginMap !! v = None) →
     is_Some (linkPluginMap !! "dom") →
     result (call validateConfig c1) = true
     ∧ after (call validateConfig c1) = set_linkPlugins (JArr []) c1).
Proof.
  intros Hacc Henv.
  destruct (validateConfig_accepted c Hacc) as (Hh & Hp & Hf & Hl).
  destruct (pathStep c) as [[c0 l0]|] eqn:Hp0; [|by destruct Hp]. clear Hp.
  destruct (pathStep_again c c0 l0 Hp0 Henv) as (Hh0 & Hf0 & Hl0 & Hp1).
  rewrite (validateConfig_checked c c0 l0) by done.
  unfold after at 1. simpl. rewrite <- Hh0 in Hh. rewrite <- Hf0 in Hf.
  unfold linksOk in Hl. rewrite <- Hl0 in *. clear Hh0 Hf0 Hl0 Hacc Hp0 Henv.
  split.
  - intros Hundef. unfold linkStep at 1 2. rewrite Hundef. simpl.
    rewrite (validateConfig_checked c0 c0 []) by done.
    unfold linkStep. by rewrite Hundef.
  - intros Hdef Hreg [d Hdom]. unfold linkStep at 1 2 3.
    destruct (linkPlugins c0) as [| | | | |elems|] eqn:Hlinks; try done. simpl in Hl.
    apply negb_true_iff in Hl. rewrite Hl. simpl.
    set (plugins := translate (newSet elems)).
    set (c1 := set_linkPlugins (JArr (JStr <$> plugins)) c0).
    assert (pathStep c1 = Some (c1, [])) as Hp2.
    { unfold c1. by rewrite pathStep_set_linkPlugins, Hp1. }
    rewrite (validateConfig_checked c1 c1 []); [|by destruct c0..].
    assert (domAndWorker (newSet (JStr <$> plugins)) = false) as Hboth.
    { unfold domAndWorker. rewrite !setHas_newSet.
      apply not_true_is_false. intros [Hd%setHas_str _]%andb_prop.
      apply list_elem_of_fmap in Hd as (t & [= <-] & Ht).
      apply elem_of_translate in Ht as (k & Hk).
      apply Hreg in Hk. by rewrite Hdom in Hk. }
    assert (translate (newSet (JStr <$> plugins)) = []) as Hnone.
    { apply translate_unknown. intros e He.
      apply (proj1 (elem_of_newSet _ _)) in He.
      apply list_elem_of_fmap in He as (t & -> & Ht).
      apply elem_of_translate in Ht as (k & Hk). simpl. by eapply Hreg. }
    unfold linkStep, result, after. simpl. rewrite Hboth. simpl. by rewrite Hnone.
Qed.

(** ** Further properties of the validator *)

(** The [path] step changes nothing but [path], and only an unset one. *)
Lemma pathStep_shape (c c1 : GenerateConfig) (l1 : list Event) :
  pathStep c = Some (c1, l1) →
  (c1 = c ∧ l1 = [] ∧ ∃ s, path c = JStr s)
  ∨ (∃ pkg filepath,
       path c = JUndefined ∧ getPackageWithPath cwd cwd = Some (pkg, filepath)
       ∧ c1 = set_path (JStr (toUnix filepath)) c ∧ l1 = [GetPackageWithPath cwd cwd]).
Proof.
  unfold pathStep. destruct (path c) eqn:Hp; try done.
  - destruct (getPackageWithPath cwd cwd) as [[pkg fp]|] eqn:Hfound; [|done].
    intros [= <- <-]. right. by exists pkg, fp.
  - destruct (explicitPathOk s); [|done]. intros [= <- <-]. left. eauto.
Qed.


Lemma linkNote_not_error (entry : JsVal) : isError (linkNote entry) = false.
Proof. unfold linkNote. by destruct (mapGet linkPluginMap entry). Qed.

Lemma linkNotes_not_error (entries : list JsVal) :
  Forall (λ e, isError e = false) (linkNote <$> entries).
Proof. apply Forall_fmap, Forall_forall. intros e _. apply linkNote_not_error. Qed.

(** X9. An accepted run logs no error; a refused run ends with its one error
    line. *)
Theorem one_error_when_refused (c : GenerateConfig) :
  (result (call validateConfig c) = true →
   Forall (λ e, isError e = false) (events (call validateConfig c)))
  ∧ (result (call validateConfig c) = false →
     ∃ before msg,
       events (call validateConfig c) = before ++ [Log Error msg]
       ∧ Forall (λ e, isError e = false) before).
Proof.
  destruct c as [nav cond out pkgName p ts opts td links].
  unfold validateConfig. run. brute.
  all: simpl; rewrite ?app_nil_r.
  all: split; intros Hr; try discriminate Hr.
  all: try (by repeat constructor).
  all: try (by apply linkNotes_not_error).
  all: try (by constructor; [|apply linkNotes_not_error]).
  all: try (by eexists [], _; split; [reflexivity|constructor]).
  all: by eexists [_], _; split; [reflexivity|repeat constructor].
Qed.

(** X10. [validateConfig] assigns to [path] and [linkPlugins] only: to [path]
    only when it was unset, to [linkPlugins] only when it accepts. *)
Theorem validateConfig_frame (c : GenerateConfig) :
  dmtNavStyle (after (call validateConfig c)) = dmtNavStyle c
  ∧ exportCondition (after (call validateConfig c)) = exportCondition c
  ∧ output (after (call validateConfig c)) = output c
  ∧ packageName (after (call validateConfig c)) = packageName c
  ∧ tsconfigPath (after (call validateConfig c)) = tsconfigPath c
  ∧ typedocOptions (after (call validateConfig c)) = typedocOptions c
  ∧ typedocPath (after (call validateConfig c)) = typedocPath c
  ∧ (isDefined (path c) = true → path (after (call validateConfig c)) = path c)
  ∧ (result (call validateConfig c) = false →
     linkPlugins (after (call validateConfig c)) = linkPlugins c).
Proof.
  destruct (call validateConfig c) as [[r c'] l] eqn:Hrun.
  unfold result, after. simpl. revert Hrun.
  destruct c as [nav cond out pkgName p ts opts td links].
  unfold validateConfig. run. brute.
  all: intros [= <- <- <-]; by split_and!.
Qed.

(** X11. A request that fails one of the four checks before [path] is refused
    with one error line, before the file system is looked at: the request is
    left as it was and there is no manifest lookup. *)
Theorem header_failure_is_immediate (c : GenerateConfig) :
  headerOk c = false →
  ∃ msg,
    call validateConfig c = (false, c, [Log Error msg])
    ∧ msg ∈ ["Error: 'dmtNavStyle' must be 'compact' or 'flat'.";
             "Error: 'exportCondition' must be a string.";
             "Error: 'output' must be a string.";
             "Error: 'packageName' must be a string."].
Proof.
  unfold headerOk. destruct c as [nav cond out pkgName p ts opts td links].
  simpl. intros Hh. unfold validateConfig. run.
  do 4 (simpl;
        match goal with
        | |- context [if ?b then _ else _] =>
            destruct b eqn:?; [eexists; split; [reflexivity|repeat constructor]|]
        end).
  normalize_checks.
  repeat match goal with H : _ = true |- _ => rewrite H in Hh end.
  done.
Qed.

(** X12. The manifest lookup takes place exactly when [path] is unset and the four
    checks before it pass, and then in the working directory. *)
Theorem lookup_iff_path_unset (c : GenerateConfig) (filepath basepath : string) :
  GetPackageWithPath filepath basepath ∈ events (call validateConfig c)
  ↔ path c = JUndefined ∧ headerOk c = true ∧ filepath = cwd ∧ basepath = cwd.
Proof.
  split.
  - destruct c as [nav cond out pkgName p ts opts td links].
    unfold validateConfig. run. brute.
    all: simpl; rewrite ?app_nil_r; intros Hin.
    all: try (by apply elem_of_nil in Hin).
    all: try (by apply list_elem_of_singleton in Hin).
    all: try (by apply list_elem_of_fmap in Hin as (e & He & _); symmetry in He;
              apply linkNote_is_log in He).
    all: apply elem_of_cons in Hin as [[= -> ->]|Hin].
    all: try (by apply elem_of_nil in Hin).
    all: try (by apply list_elem_of_singleton in Hin).
    all: try (by apply list_elem_of_fmap in Hin as (e & He & _); symmetry in He;
              apply linkNote_is_log in He).
    all: split_and!; try done.
    all: unfold headerOk; simpl; normalize_checks; by repeat (known; simpl).
  - intros (Hp & Hh & -> & ->).
    by apply head_Some_elem_of, validateConfig_lookup_first.
Qed.

Lemma setHas_strings (names : list string) (k : string) :
  setHas (JStr <$> names) (JStr k) = true ↔ k ∈ names.
Proof.
  rewrite setHas_str. split.
  - by intros (k' & [= ->] & Hin)%list_elem_of_fmap.
  - intros Hin. apply list_elem_of_fmap. by exists k.
Qed.

(** A [Set] of strings that are all different keeps them as they come. *)
Lemma newSet_strings (names : list string) :
  NoDup names → newSet (JStr <$> names) = JStr <$> names.
Proof.
  unfold newSet.
  assert (∀ acc, NoDup (acc ++ names) →
                 foldl setAdd (JStr <$> acc) (JStr <$> names)
                 = JStr <$> (acc ++ names)) as Hgen.
  { induction names as [|x names IH]; intros acc Hnd; simpl.
    - by rewrite app_nil_r.
    - assert (setHas (JStr <$> acc) (JStr x) = false) as Hfresh.
      { apply not_true_is_false. intros Hin%setHas_strings.
        apply NoDup_app in Hnd as (_ & Hdisj & _).
        apply (Hdisj x Hin). apply list_elem_of_here. }
      unfold setAdd at 2. rewrite Hfresh.
      replace ((JStr <$> acc) ++ [JStr x]) with (JStr <$> (acc ++ [x]))
        by by rewrite fmap_app.
      rewrite IH; by rewrite <- app_assoc. }
  intros Hnd. by apply (Hgen []).
Qed.

Lemma translate_strings (names ids : list string) :
  Forall2 (λ k t, linkPluginMap !! k = Some t) names ids →
  translate (JStr <$> names) = ids.
Proof.
  unfold translate. induction 1 as [|k t names ids Hk _ IH]; csimpl; [done|].
  by rewrite Hk, IH.
Qed.

(** X13. A list of plugin names the registry knows, none given twice, is replaced
    by the list of their module identifiers in the same order. *)
Theorem known_names_keep_their_order (c : GenerateConfig) (names ids : list string) :
  linkPlugins c = JArr (JStr <$> names) →
  NoDup names →
  Forall2 (λ k t, linkPluginMap !! k = Some t) names ids →
  ¬ ("dom" ∈ names ∧ "worker" ∈ names) →
  result (call validateConfig (set_linkPlugins JUndefined c)) = true →
  result (call validateConfig c) = true
  ∧ linkPlugins (after (call validateConfig c)) = JArr (JStr <$> ids).
Proof.
  intros Hl Hnd Hids Hnot (c1 & l1 & Hl1 & _ & ->)%validateConfig_links.
  unfold linkStep, result, after. rewrite Hl1, Hl. simpl.
  rewrite (newSet_strings _ Hnd), (translate_strings _ _ Hids).
  assert (domAndWorker (JStr <$> names) = false) as ->; [|done].
  unfold domAndWorker. apply not_true_is_false.
  intros [?%setHas_strings ?%setHas_strings]%andb_prop. tauto.
Qed.

Lemma string_append_cons (x : ascii) (a b : string) :
  String x a +:+ b = String x (a +:+ b).
Proof. reflexivity. Qed.

Lemma string_append_assoc (a b c : string) : (a +:+ b) +:+ c = a +:+ b +:+ c.
Proof.
  induction a as [|x a IH]; [done|]. rewrite !string_append_cons. by f_equal.
Qed.

Lemma string_length_append (a b : string) :
  String.length (a +:+ b) = String.length a + String.length b.
Proof.
  induction a as [|x a IH]; [done|]. rewrite string_append_cons. simpl. by f_equal.
Qed.

Lemma substring_all (s : string) : String.substring 0 (String.length s) s = s.
Proof. induction s as [|x s IH]; simpl; [done|]. by f_equal. Qed.

Lemma substring_suffix (pre suf : string) :
  String.substring (String.length pre) (String.length suf) (pre +:+ suf) = suf.
Proof.
  induction pre as [|x pre IH]; [apply substring_all|].
  by rewrite string_append_cons.
Qed.

Lemma substring_split (n m : nat) (s : string) :
  n + m = String.length s →
  s = String.substring 0 n s +:+ String.substring n m s.
Proof.
  revert s. induction n as [|n IH]; intros s Hlen; simpl in *.
  - subst m. destruct s; simpl; [done|].
    change ("" +:+ ?x) with x. by rewrite substring_all.
  - destruct s as [|x s]; simpl in *; [done|].
    rewrite string_append_cons. f_equal. apply IH. lia.
Qed.

(** [endsWith] is the test for a suffix. *)
Lemma endsWith_suffix (s suffix : string) :
  endsWith s suffix = true ↔ ∃ pre, s = pre +:+ suffix.
Proof.
  unfold endsWith. rewrite andb_true_iff, !bool_decide_eq_true. split.
  - intros [Hle Hsub].
    exists (String.substring 0 (String.length s - String.length suffix) s).
    transitivity
      (String.substring 0 (String.length s - String.length suffix) s
       +:+ String.substring (String.length s - String.length suffix)
             (String.length suffix) s);
      [apply substring_split; lia|by rewrite Hsub].
  - intros [pre ->]. rewrite string_length_append. split; [lia|].
    replace (String.length pre + String.length suffix - String.length suffix)
      with (String.length pre) by lia.
    apply substring_suffix.
Qed.

(** X14. The names an explicit [path] may have are those that end in [.js],
    [.mjs], [.ts], [.mts], [.d.cts] or [package.json]; of the declaration
    files only [.d.cts] is not already among the allowed files, and a name
    such as [my-package.json] passes for a manifest. *)
Theorem allowed_path_names (s : string) :
  regexIsDTSFile_test s || regexAllowedFiles_test s || endsWith s "package.json" = true
  ↔ ∃ pre suffix, suffix ∈ allowedSuffixes ∧ s = pre +:+ suffix.
Proof.
  unfold regexIsDTSFile_test, regexAllowedFiles_test, allowedSuffixes.
  rewrite !orb_true_iff, !endsWith_suffix. split.
  - intros [[[[[pre ->]|[pre ->]]|[pre ->]]|[[[[pre ->]|[pre ->]]|[pre ->]]|[pre ->]]]|[pre ->]].
    + exists pre, ".d.cts". split; [repeat constructor|done].
    + exists (pre +:+ ".d"), ".ts". split; [repeat constructor|].
      by rewrite string_append_assoc.
    + exists (pre +:+ ".d"), ".mts". split; [repeat constructor|].
      by rewrite string_append_assoc.
    + exists pre, ".js". split; [repeat constructor|done].
    + exists pre, ".mjs". split; [repeat constructor|done].
    + exists pre, ".ts". split; [repeat constructor|done].
    + exists pre, ".mts". split; [repeat constructor|done].
    + exists pre, "package.json". split; [repeat constructor|done].
  - intros (pre & suffix & Hin & ->).
    repeat (apply elem_of_cons in Hin as [->|Hin]; [eauto 10|]).
    by apply elem_of_nil in Hin.
Qed.

(** X15. Compiler options without diagnostics are returned and nothing is logged;
    [void 0] is returned exactly when there are diagnostics. *)
Theorem compiler_options_returned_when_clean `{TypeScript} (json : CompilerOptionsJson) :
  ((convertCompilerOptionsFromJson json cwd).2 = [] →
   call (validateCompilerOptions json) ()
   = (Some (convertCompilerOptionsFromJson json cwd).1, (), []))
  ∧ (result (call (validateCompilerOptions json) ()) = None
     ↔ (convertCompilerOptionsFromJson json cwd).2 ≠ []).
Proof.
  unfold validateCompilerOptions.
  destruct (convertCompilerOptionsFromJson json cwd) as [options errors]. simpl.
  destruct errors as [|e errors].
  - split; [done|]. split; [by run|done].
  - split; [done|]. split; [done|]. intros _.
    rewrite bool_decide_eq_true_2 by (simpl; lia).
    unfold call, when, mbind, Exec_bind.
    rewrite (forOf_logger (R:=option CompilerOptions) Error
      (λ err, "[TS] " +:+ flattenDiagnosticMessageText err newline)).
    by run.
Qed.

(** X16. An accepted request is left in the shape the generator reads: [path],
    [exportCondition] and [output] are strings, and [linkPlugins] is unset or
    a list of module identifiers of the registry. *)
Theorem accepted_request_is_normalized (c : GenerateConfig) :
  result (call validateConfig c) = true →
  isString (path (after (call validateConfig c))) = true
  ∧ isString (exportCondition (after (call validateConfig c))) = true
  ∧ isString (output (after (call validateConfig c))) = true
  ∧ (linkPlugins (after (call validateConfig c)) = JUndefined
     ∨ ∃ ids, linkPlugins (after (call validateConfig c)) = JArr (JStr <$> ids)
              ∧ ∀ t, t ∈ ids → ∃ k, linkPluginMap !! k = Some t).
Proof.
  intros (Hh & [[c1 l1] Hp] & Hf & Hl)%validateConfig_accepted.
  rewrite (validateConfig_checked c c1 l1) by done. unfold after. simpl.
  unfold headerOk in Hh. normalize_checks.
  assert (isString (path c1) = true ∧ exportCondition c1 = exportCondition c
          ∧ output c1 = output c ∧ linkPlugins c1 = linkPlugins c)
    as (Hpath & Hcond & Hout & Hlinks).
  { destruct (pathStep_shape c c1 l1 Hp)
      as [(-> & _ & s & ->)|(? & ? & _ & _ & -> & _)]; done. }
  unfold linksOk in Hl. rewrite <- Hlinks in Hl. unfold linkStep.
  destruct (linkPlugins c1) as [| | | | |elems|] eqn:Hlp; simpl in *; try done.
  - rewrite Hcond, Hout. split_and!; try done. by left.
  - apply negb_true_iff in Hl. rewrite Hl. simpl.
    rewrite Hcond, Hout. split_and!; try done.
    right. eexists. split; [done|]. apply elem_of_translate.
Qed.


(** X17. A [path] that is set and does not pass: what is not a string is refused
    as such; a string is looked up as a file in its [toUnix] form first, and
    only a file is tested for its name.  The error names the [toUnix] form,
    and the request is left as it was. *)
Theorem explicit_path_refused (c : GenerateConfig) :
  headerOk c = true →
  (isDefined (path c) = true → isString (path c) = false →
   call validateConfig c = (false, c, [Log Error "Error: 'path' must be a string."]))
  ∧ (∀ s, path c = JStr s →
          isFile (JStr (toUnix s)) = false →
          call validateConfig c
          = (false, c, [Log Error ("Error: 'path' is not a file; " +:+ toUnix s)]))
  ∧ (∀ s, path c = JStr s →
          isFile (JStr (toUnix s)) = true →
          regexIsDTSFile_test (toUnix s) || regexAllowedFiles_test (toUnix s)
          || endsWith (toUnix s) "package.json" = false →
          call validateConfig c
          = (false, c,
             [Log Error
                ("Error: 'path' is not an allowed entry point or 'package.json' file; "
                 +:+ toUnix s)])).
Proof.
  unfold headerOk. destruct c as [nav cond out pkgName p ts opts td links].
  simpl. intros Hh. normalize_checks. split_and!.
  - intros Hdef Hstr. unfold validateConfig. run. repeat (known; simpl).
    by destruct p.
  - intros s -> Hfile. unfold validateConfig. run. by repeat (known; simpl).
  - intros s -> Hfile Hname. unfold validateConfig. run. by repeat (known; simpl).
Qed.

(** X18. A [linkPlugins] that is set and is not iterable is refused once all the
    other checks have passed: the run is that of the request without
    [linkPlugins], followed by the error. *)
Theorem linkPlugins_must_be_iterable (c : GenerateConfig) :
  isDefined (linkPlugins c) = true →
  isIterable (linkPlugins c) = false →
  result (call validateConfig c) = false
  ∧ (result (call validateConfig (set_linkPlugins JUndefined c)) = true →
     events (call validateConfig c)
     = events (call validateConfig (set_linkPlugins JUndefined c))
       ++ [Log Error "Error: 'linkPlugins' must be an iterable list."]
     ∧ linkPlugins (after (call validateConfig c)) = linkPlugins c).
Proof.
  intros Hdef Hiter. split.
  - destruct (result (call validateConfig c)) eqn:E; [|done].
    apply validateConfig_accepted in E as (_ & _ & _ & Hok).
    unfold linksOk in Hok. by rewrite Hdef, Hiter in Hok.
  - intros (c1 & l1 & Hl1 & -> & ->)%validateConfig_links.
    unfold linkStep, events, after. rewrite Hl1. simpl.
    by destruct (linkPlugins c).
Qed.

End Validator.

(** ** The sample directory *)

Section Instances.
Import Validation.

Local Abbreviation construct := (PackageJson.constructor (H:=Sample.collector)).
Local Abbreviation process := (PackageJson.process (H:=Sample.collector)).
Local Abbreviation fresh := (PackageJson.fresh (H:=Sample.collector)).
Local Abbreviation validate := (validateConfig (H:=Sample.bare)).
Local Abbreviation validate_packaged := (validateConfig (H:=Sample.packaged)).

Example regexIsDTSFile_samples :
  regexIsDTSFile_test "/work/index.d.ts" = true
  ∧ regexIsDTSFile_test "/work/index.d.mts" = true
  ∧ regexIsDTSFile_test "/work/index.ts" = false
  ∧ regexIsDTSFile_test "/work/index.d.ts.map" = false.
Proof. by vm_compute. Qed.

Example regexAllowedFiles_samples :
  regexAllowedFiles_test "/work/src/main.mjs" = true
  ∧ regexAllowedFiles_test "/work/src/main.cjs" = false
  ∧ regexAllowedFiles_test "/work/package.json" = false.
Proof. by vm_compute. Qed.

Example newSet_sample :
  newSet [JStr "dom"; JNum 3; JStr "dom"; JStr "esm"; JNum 3]
  = [JStr "dom"; JNum 3; JStr "esm"].
Proof. reflexivity. Qed.

Example conditional_exports_sample :
  PackageJson.entryPoints (construct Sample.conditional "/work/package.json" (JStr "types")).1
  = {[ "/work/index.d.ts"; "/work/sub/index.d.ts" ]}.
Proof. vm_compute. reflexivity. Qed.

Example exportMapOf_samples :
  (Sample.exportMapOf "/work" ["types"; "default"] (exports Sample.scripted)).1 = ∅
  ∧ Sample.exportTarget_order_sample = Some "./b.d.ts"
  ∧ Sample.lastWins [("./a", 1); ("./b", 2); ("./a", 3)] = [("./b", 2); ("./a", 3)].
Proof. by vm_compute. Qed.

Lemma types_precedes_typings_witness :
  PackageJson.entryPoints (construct Sample.manifest "/work/package.json" (JStr "types")).1
  = {[ "/work/index.d.ts" ]}
  ∧ (construct Sample.manifest "/work/package.json" (JStr "types")).2
    = [Log Verbose "No 'exports' conditions found in 'package.json'.";
       loading "types"; Log Verbose "/work/index.d.ts"].
Proof.
  apply (types_precedes_typings (H:=Sample.collector) Sample.manifest
           "/work/package.json" "./index.d.ts" "./legacy.d.ts");
    vm_compute; done.
Defined.

(** At a manifest whose [exports] is the string ["./index.d.ts"] and whose
    [types] is ["./types/main.d.ts"], there is no export map and the one entry
    point is the resolved [types] path; the file that [exports] names is not
    an entry point. *)
Lemma exports_string_counterexample :
  PackageJson.exportMap (construct Sample.single "/work/package.json" (JStr "types")).1 = None
  ∧ PackageJson.entryPoints (construct Sample.single "/work/package.json" (JStr "types")).1
    = {[ "/work/types/main.d.ts" ]}
  ∧ "/work/index.d.ts"
    ∉ PackageJson.entryPoints (construct Sample.single "/work/package.json" (JStr "types")).1.
Proof.
  assert (PackageJson.entryPoints
            (construct Sample.single "/work/package.json" (JStr "types")).1
          = {[ "/work/types/main.d.ts" ]}) as Hpoints by (by vm_compute).
  split_and!; [by vm_compute|done|].
  rewrite Hpoints. by intros ?%elem_of_singleton.
Qed.

(** At a manifest whose [types] is ["./index.js"], the warning is logged and
    the entry points are empty: the candidate is not included. *)
Lemma warn_then_include_counterexample :
  (construct Sample.script "/work/package.json" (JStr "types")).2
  = [Log Verbose "No 'exports' conditions found in 'package.json'.";
     loading "types"; rejected "types" "./index.js"]
  ∧ PackageJson.entryPoints (construct Sample.script "/work/package.json" (JStr "types")).1 = ∅
  ∧ "/work/index.js"
    ∉ PackageJson.entryPoints (construct Sample.script "/work/package.json" (JStr "types")).1.
Proof.
  assert (PackageJson.entryPoints
            (construct Sample.script "/work/package.json" (JStr "types")).1 = ∅)
    as Hpoints by (by vm_compute).
  split_and!; [by vm_compute|done|].
  rewrite Hpoints. apply not_elem_of_empty.
Qed.

Lemma rejected_candidate_is_excluded_witness :
  call process (fresh Sample.script "/work/package.json" (JStr "types"))
  = ((), fresh Sample.script "/work/package.json" (JStr "types"),
     [loading "types"; rejected "types" "./index.js"])
  ∧ PackageJson.entryPoints
      (after (call process (fresh Sample.script "/work/package.json" (JStr "types"))))
    = ∅.
Proof.
  apply (rejected_candidate_is_excluded (H:=Sample.collector)
           (fresh Sample.script "/work/package.json" (JStr "types"))
           "types" "./index.js"); [reflexivity|reflexivity| |reflexivity].
  left. split; reflexivity.
Defined.

Lemma typings_not_consulted_witness :
  call process (fresh Sample.script "/work/package.json" (JStr "types"))
  = ((), fresh Sample.script "/work/package.json" (JStr "types"),
     [loading "types"; rejected "types" "./index.js"])
  ∧ call process (fresh Sample.manifest "/work/package.json" (JStr "import"))
    = ((), fresh Sample.manifest "/work/package.json" (JStr "import"), [])
  ∧ PackageJson.entryPoints (construct Sample.script "/work/package.json" (JStr "types")).1 = ∅.
Proof.
  destruct (typings_not_consulted (H:=Sample.collector)) as (Htypes & Hoff & Hempty).
  split_and!.
  - apply (Htypes _ "./index.js"); reflexivity.
  - apply Hoff; [reflexivity|discriminate].
  - apply Hempty; [discriminate|]. right. exists "./index.js". split; reflexivity.
Defined.

Lemma compiler_diagnostics_all_surfaced_witness :
  call (validateCompilerOptions (H:=Sample.bare) (H0:=Sample.compiler)
          ["strict"; "outDir"; "jsx"]) ()
  = (None, (),
     [Log Error "[TS] Unknown compiler option 'outDir'.";
      Log Error "[TS] Unknown compiler option 'jsx'."]).
Proof.
  apply (compiler_diagnostics_all_surfaced (H:=Sample.bare) (H0:=Sample.compiler)
           ["strict"; "outDir"; "jsx"]).
  vm_compute. discriminate.
Defined.

Lemma dom_and_worker_exclusive_witness :
  result (call validate (Sample.linked ["dom"; "esm"; "worker"])) = false
  ∧ events (call validate (Sample.linked ["dom"; "esm"; "worker"])) = [exclusiveError].
Proof.
  destruct (dom_and_worker_exclusive (H:=Sample.bare)
              (Sample.linked ["dom"; "esm"; "worker"])
              [JStr "dom"; JStr "esm"; JStr "worker"])
    as [Hrefused Hevents]; [reflexivity|repeat constructor..|].
  split; [exact Hrefused|]. rewrite Hevents; reflexivity.
Defined.




(** No module identifier of the sample registry is a plugin name. *)
Lemma registry_identifiers_unknown (k v : string) :
  Sample.registry !! k = Some v → Sample.registry !! v = None.
Proof.
  unfold Sample.registry. intros Hk.
  repeat (apply lookup_insert_Some in Hk as [[<- <-]|[_ Hk]]; [by vm_compute|]).
  apply lookup_singleton_Some in Hk as [<- <-]. by vm_compute.
Qed.

(** The request with ['dom'] is accepted with the module identifier of
    ['dom'] as its list; validated again, the result is accepted with an empty
    list: the second run does not give the same result. *)
Lemma revalidation_counterexample :
  result (call validate (Sample.linked ["dom"])) = true
  ∧ linkPlugins (after (call validate (Sample.linked ["dom"])))
    = JArr [JStr "@typhonjs-typedoc/ts-lib-docs/typedoc/ts-links/dom/2023"]
  ∧ result (call validate (after (call validate (Sample.linked ["dom"])))) = true
  ∧ linkPlugins (after (call validate (after (call validate (Sample.linked ["dom"])))))
    = JArr []
  ∧ after (call validate (after (call validate (Sample.linked ["dom"]))))
    ≠ after (call validate (Sample.linked ["dom"])).
Proof. split_and!; [by vm_compute..|]. vm_compute. discriminate. Qed.

Lemma revalidation_witness :
  (result (call validate_packaged (after (call validate_packaged Sample.discovering))) = true
   ∧ after (call validate_packaged (after (call validate_packaged Sample.discovering)))
     = set_path (JStr "/work/package.json") Sample.request)
  ∧ (result (call validate (after (call validate (Sample.linked ["dom"; "esm"])))) = true
     ∧ after (call validate (after (call validate (Sample.linked ["dom"; "esm"]))))
       = Sample.linked []).
Proof.
  split.
  - destruct (revalidation (H:=Sample.packaged) Sample.discovering) as [Hsame _];
      [reflexivity|intros pkg filepath _ [= <- <-]; by vm_compute|].
    apply Hsame. reflexivity.
  - destruct (revalidation (H:=Sample.bare) (Sample.linked ["dom"; "esm"]))
      as [_ Hemptied]; [reflexivity|intros pkg filepath _ [=]|].
    apply Hemptied; [reflexivity|apply registry_identifiers_unknown|by eexists].
Defined.

(** *** Further instances *)

Lemma export_map_decides_witness :
  PackageJson.exportMap (construct Sample.conditional "/work/package.json" (JStr "types")).1
  = Some (Sample.exportMapOf "/work" ["types"; "default"] (exports Sample.conditional)).1
  ∧ PackageJson.entryPoints (construct Sample.conditional "/work/package.json" (JStr "types")).1
    = dom (Sample.exportMapOf "/work" ["types"; "default"] (exports Sample.conditional)).1
  ∧ (construct Sample.conditional "/work/package.json" (JStr "types")).2 = [].
Proof.
  apply (export_map_decides (H:=Sample.collector) Sample.conditional
           "/work/package.json" (JStr "types")); [reflexivity..|].
  intros Hempty.
  assert ((Sample.exportMapOf "/work" ["types"; "default"] (exports Sample.conditional)).1
            !! "/work/index.d.ts" = Some ".") as Hkey by (vm_compute; reflexivity).
  rewrite Hempty in Hkey. discriminate Hkey.
Defined.

Lemma empty_export_map_falls_back_witness :
  PackageJson.entryPoints (construct Sample.nulled "/work/package.json" (JStr "types")).1
  = PackageJson.entryPoints
      (construct (with_exports JUndefined Sample.nulled) "/work/package.json" (JStr "types")).1
  ∧ (construct Sample.nulled "/work/package.json" (JStr "types")).2
    = [] ++ tail (construct (with_exports JUndefined Sample.nulled)
                    "/work/package.json" (JStr "types")).2.
Proof.
  apply (empty_export_map_falls_back (H:=Sample.collector) Sample.nulled
           "/work/package.json" (JStr "types")); reflexivity.
Defined.

Lemma typings_used_without_types_witness :
  PackageJson.entryPoints (construct Sample.legacy "/work/package.json" (JStr "types")).1
  = {[ "/work/legacy.d.ts" ]}
  ∧ (construct Sample.legacy "/work/package.json" (JStr "types")).2
    = [Log Verbose "No 'exports' conditions found in 'package.json'.";
       loading "typings"; Log Verbose "/work/legacy.d.ts"].
Proof.
  apply (typings_used_without_types (H:=Sample.collector) Sample.legacy
           "/work/package.json" "./legacy.d.ts");
    vm_compute; done.
Defined.

Lemma nothing_to_collect_witness :
  construct Sample.blank "/work/package.json" (JStr "types")
  = (fresh Sample.blank "/work/package.json" (JStr "types"),
     [Log Verbose "No 'exports' conditions found in 'package.json'."]).
Proof.
  apply (nothing_to_collect (H:=Sample.collector)); discriminate.
Defined.

Lemma fallback_at_most_one_witness :
  size (PackageJson.entryPoints
          (construct Sample.manifest "/work/package.json" (JStr "types")).1) ≤ 1.
Proof.
  apply (fallback_at_most_one (H:=Sample.collector)). reflexivity.
Defined.

Lemma processMapping_needs_export_map_witness :
  PackageJson.processMapping (H:=Sample.mapping) (Some true)
    (construct Sample.manifest "/work/package.json" (JStr "types")).1
  = PackageJson.ThrowsTypeError
  ∧ PackageJson.processMapping (H:=Sample.mapping) None
      (construct Sample.nulled "/work/package.json" (JStr "types")).1
    = PackageJson.Returns
        ((construct Sample.nulled "/work/package.json" (JStr "types")).1, []).
Proof.
  split.
  - apply (proj1 (processMapping_needs_export_map (H:=Sample.collector) (H0:=Sample.mapping)
                    Sample.manifest "/work/package.json" (JStr "types") (Some true))).
    discriminate.
  - apply (proj1 (proj2 (processMapping_needs_export_map (H:=Sample.collector)
                           (H0:=Sample.mapping)
                           Sample.nulled "/work/package.json" (JStr "types") None))).
    reflexivity.
Defined.


Lemma one_error_when_refused_witness :
  ∃ before msg,
    events (call validate_packaged Sample.misconfigured) = before ++ [Log Error msg]
    ∧ Forall (λ e, isError e = false) before.
Proof.
  apply (proj2 (one_error_when_refused (H:=Sample.packaged) Sample.misconfigured)).
  reflexivity.
Defined.

Lemma validateConfig_frame_witness :
  path (after (call validate Sample.request)) = JStr "/work/index.d.ts"
  ∧ linkPlugins (after (call validate_packaged
                          (set_linkPlugins (JArr [JStr "dom"]) Sample.misconfigured)))
    = JArr [JStr "dom"].
Proof.
  split.
  - apply (validateConfig_frame (H:=Sample.bare) Sample.request). reflexivity.
  - apply (validateConfig_frame (H:=Sample.packaged)
             (set_linkPlugins (JArr [JStr "dom"]) Sample.misconfigured)).
    reflexivity.
Defined.

Lemma header_failure_is_immediate_witness :
  ∃ msg,
    call validate_packaged Sample.outputless = (false, Sample.outputless, [Log Error msg])
    ∧ msg ∈ ["Error: 'dmtNavStyle' must be 'compact' or 'flat'.";
             "Error: 'exportCondition' must be a string.";
             "Error: 'output' must be a string.";
             "Error: 'packageName' must be a string."].
Proof.
  apply (header_failure_is_immediate (H:=Sample.packaged) Sample.outputless).
  reflexivity.
Defined.

Lemma lookup_iff_path_unset_witness :
  GetPackageWithPath "/work" "/work" ∈ events (call validate Sample.discovering).
Proof.
  apply (proj2 (lookup_iff_path_unset (H:=Sample.bare) Sample.discovering
                  "/work" "/work")).
  split_and!; reflexivity.
Defined.

Lemma known_names_keep_their_order_witness :
  result (call validate (Sample.linked ["esm"; "dom"])) = true
  ∧ linkPlugins (after (call validate (Sample.linked ["esm"; "dom"])))
    = JArr (JStr <$> ["@typhonjs-typedoc/ts-lib-docs/typedoc/ts-links/esm/2023";
                      "@typhonjs-typedoc/ts-lib-docs/typedoc/ts-links/dom/2023"]).
Proof.
  apply (known_names_keep_their_order (H:=Sample.bare) (Sample.linked ["esm"; "dom"])
           ["esm"; "dom"]).
  - reflexivity.
  - apply (bool_decide_unpack _). reflexivity.
  - repeat constructor.
  - intros [_ Hworker]. by repeat apply elem_of_cons in Hworker as [?|Hworker];
      try apply elem_of_nil in Hworker.
  - reflexivity.
Defined.

Lemma allowed_path_names_witness :
  regexIsDTSFile_test "/work/my-package.json"
  || regexAllowedFiles_test "/work/my-package.json"
  || endsWith "/work/my-package.json" "package.json" = true.
Proof.
  apply (proj2 (allowed_path_names "/work/my-package.json")).
  exists "/work/my-", "package.json". split; [repeat constructor|reflexivity].
Defined.

Lemma compiler_options_returned_when_clean_witness :
  call (validateCompilerOptions (H:=Sample.bare) (H0:=Sample.compiler)
          ["strict"; "declaration"]) ()
  = (Some ["strict"; "declaration"], (), []).
Proof.
  apply (proj1 (compiler_options_returned_when_clean (H:=Sample.bare)
                  (H0:=Sample.compiler) ["strict"; "declaration"])).
  reflexivity.
Defined.

Lemma accepted_request_is_normalized_witness :
  isString (path (after (call validate_packaged Sample.discovering))) = true
  ∧ isString (exportCondition (after (call validate_packaged Sample.discovering))) = true
  ∧ isString (output (after (call validate_packaged Sample.discovering))) = true
  ∧ (linkPlugins (after (call validate_packaged Sample.discovering)) = JUndefined
     ∨ ∃ ids,
         linkPlugins (after (call validate_packaged Sample.discovering))
         = JArr (JStr <$> ids)
         ∧ ∀ t, t ∈ ids → ∃ k, Sample.registry !! k = Some t).
Proof.
  apply (accepted_request_is_normalized (H:=Sample.packaged) Sample.discovering).
  reflexivity.
Defined.

Lemma explicit_path_refused_witness :
  call validate (set_path (JNum 7) Sample.request)
  = (false, set_path (JNum 7) Sample.request,
     [Log Error "Error: 'path' must be a string."])
  ∧ call validate (set_path (JStr "\work\gone.d.ts") Sample.request)
    = (false, set_path (JStr "\work\gone.d.ts") Sample.request,
       [Log Error "Error: 'path' is not a file; /work/gone.d.ts"])
  ∧ call validate (set_path (JStr "/work/tsconfig.json") Sample.request)
    = (false, set_path (JStr "/work/tsconfig.json") Sample.request,
       [Log Error
          "Error: 'path' is not an allowed entry point or 'package.json' file; /work/tsconfig.json"]).
Proof.
  split_and!.
  - apply (proj1 (explicit_path_refused (H:=Sample.bare)
                    (set_path (JNum 7) Sample.request) eq_refl)); reflexivity.
  - apply (proj1 (proj2 (explicit_path_refused (H:=Sample.bare)
                           (set_path (JStr "\work\gone.d.ts") Sample.request) eq_refl))
             "\work\gone.d.ts"); reflexivity.
  - apply (proj2 (proj2 (explicit_path_refused (H:=Sample.bare)
                           (set_path (JStr "/work/tsconfig.json") Sample.request) eq_refl))
             "/work/tsconfig.json"); reflexivity.
Defined.

Lemma linkPlugins_must_be_iterable_witness :
  result (call validate (set_linkPlugins (JNum 3) Sample.request)) = false
  ∧ events (call validate (set_linkPlugins (JNum 3) Sample.request))
    = [Log Error "Error: 'linkPlugins' must be an iterable list."].
Proof.
  destruct (linkPlugins_must_be_iterable (H:=Sample.bare)
              (set_linkPlugins (JNum 3) Sample.request))
    as [Hrefused Hevents]; [reflexivity..|].
  split; [exact Hrefused|]. apply (proj1 (Hevents eq_refl)).
Defined.

End Instances.
